(** * Marketing workflow orchestration: chain.py and acp_crew.py

    A shallow embedding of the two orchestrators of the repository:
    the sequential planner -> writer chain (chain.py) and the
    agent-discovery variant (acp_crew.py).  Python dictionaries are
    finite maps, exceptions are an explicit result type, and the
    effects of a run (remote calls, file system) are threaded through
    a small state-and-error monad over a [world].

    Console output (print, logger) is not part of the embedding. *)

From Stdlib Require Import Ascii String.
From stdpp Require Import base option gmap strings list fin_maps.

Open Scope string_scope.

(** ** Python values, exceptions and string helpers *)

Module Py.

(** The values a context dictionary holds: a str or a list of str.
    Other Python values, on which the join of key_benefits raises
    TypeError, are outside the embedding. *)
Inductive value : Type :=
| VStr (s : string)
| VList (l : list string).

Inductive os_error : Type :=
| FileExistsError
| FileNotFoundError
| PermissionError
| IsADirectoryError.

(** The exceptions that can leave the orchestrators.  [RemoteError]
    stands for whatever the ACP client raises on a failed call. *)
Inductive exn : Type :=
| KeyError (key : string)
| ValueError (msg : string)
| OSError (kind : os_error) (path : string)
| RemoteError (detail : string).

Inductive result (A : Type) : Type :=
| Ok (a : A)
| Raise (e : exn).
Arguments Ok {A} a.
Arguments Raise {A} e.

#[global] Instance result_ret : MRet result := fun A a => Ok a.
#[global] Instance result_bind : MBind result := fun A B f m =>
  match m with
  | Ok a => f a
  | Raise e => Raise e
  end.

Definition is_ok {A} (r : result A) : bool :=
  match r with Ok _ => true | Raise _ => false end.

Definition nl : string := String (ascii_of_nat 10) "".
Definition dquote : string := String (ascii_of_nat 34) "".

(** [d[k]]: subscription raises KeyError carrying the key. *)
Definition getitem (d : gmap string value) (k : string) : result value :=
  match d !! k with
  | Some v => Ok v
  | None => Raise (KeyError k)
  end.

(** [x or d] on an Optional[str]: None and the empty string are falsy. *)
Definition or_default (x : option string) (d : string) : string :=
  match x with
  | None => d
  | Some "" => d
  | Some s => s
  end.

Definition chars (s : string) : list string :=
  (fun c => String c "") <$> list_ascii_of_string s.

(** [sep.join(v)]: a list is joined element-wise, a str character-wise. *)
Definition join (sep : string) (v : value) : string :=
  match v with
  | VList l => String.concat sep l
  | VStr s => String.concat sep (chars s)
  end.

(** str.isspace on a single character (code points below 256). *)
Definition isspace (c : ascii) : bool :=
  let n := nat_of_ascii c in
  (((9 <=? n) && (n <=? 13)) || ((28 <=? n) && (n <=? 32))
   || (n =? 133) || (n =? 160))%nat.

Fixpoint lstrip (s : string) : string :=
  match s with
  | "" => ""
  | String c r => if isspace c then lstrip r else s
  end.

Fixpoint rstrip (s : string) : string :=
  match s with
  | "" => ""
  | String c r =>
      match rstrip r with
      | "" => if isspace c then "" else String c ""
      | r' => String c r'
      end
  end.

Definition strip (s : string) : string := rstrip (lstrip s).

(** A multi-line literal, one element per source line. *)
Definition text (lines : list string) : string := String.concat nl lines.

Section Format.
(** str() of a list is the interpreter's; the embedding takes it as
    a parameter. *)
Variable str_list : list string -> string.

(** What an f-string replacement field renders for a value. *)
Definition str (v : value) : string :=
  match v with
  | VStr s => s
  | VList l => str_list l
  end.
End Format.

End Py.
Export Py.


(** ** The ACP client, as far as the orchestrators use it *)

Module Acp.

(** A part carries text; a part without content is outside the
    embedding. *)
Record MessagePart := { content : string }.
Record Message := { parts : list MessagePart }.
Record Run := { output : list Message }.

(** One [run_sync] request, as a stub endpoint would record it. *)
Record call := { base_url : string; agent : string; input : string }.

(** The remote endpoints: what [Client(base_url).run_sync(agent, input)]
    answers, or the exception it raises. *)
Definition remote : Type := string -> string -> string -> result Run.

(** A response carrying exactly one text part. *)
Definition reply (s : string) : Run :=
  {| output := [ {| parts := [ {| content := s |} ] |} ] |}.

End Acp.
Export Acp.

(** ** The world a run acts on, and the monad threading it *)

Record world := {
  fs_files : gmap string string;   (* regular files and their text *)
  fs_dirs : gset string;           (* existing directories *)
  fs_denied : gset string;         (* paths the process may not create or write *)
  calls : list call                (* requests sent so far, oldest first *)
}.

Definition M (A : Type) : Type := world -> result A * world.

#[global] Instance M_ret : MRet M := fun A a w => (Ok a, w).
#[global] Instance M_bind : MBind M := fun A B f m w =>
  match m w with
  | (Ok a, w') => f a w'
  | (Raise e, w') => (Raise e, w')
  end.

Definition lift {A} (r : result A) : M A := fun w => (r, w).

Definition run_sync (net : remote) (url agent input : string) : M Run := fun w =>
  (net url agent input,
   {| fs_files := fs_files w; fs_dirs := fs_dirs w; fs_denied := fs_denied w;
      calls := calls w ++ [ {| base_url := url; agent := agent; input := input |} ] |}).

Module Os.

(** The directory part of a path, [None] for a bare file name. *)
Fixpoint dirname (p : string) : option string :=
  match p with
  | "" => None
  | String c r =>
      match dirname r with
      | Some d => Some (String c d)
      | None => if Ascii.eqb c "/" then Some "" else None
      end
  end.

Definition parent_exists (w : world) (p : string) : bool :=
  match dirname p with
  | None | Some "" => true
  | Some d => bool_decide (d ∈ fs_dirs w)
  end.

(** [os.makedirs(d, exist_ok=True)] for a single-component path. *)
Definition makedirs (d : string) : M unit := fun w =>
  if bool_decide (d ∈ fs_dirs w) then (Ok (), w)
  else if bool_decide (d ∈ dom (fs_files w)) then (Raise (OSError FileExistsError d), w)
  else if bool_decide (d ∈ fs_denied w) then (Raise (OSError PermissionError d), w)
  else (Ok (),
        {| fs_files := fs_files w; fs_dirs := {[ d ]} ∪ fs_dirs w;
           fs_denied := fs_denied w; calls := calls w |}).

(** [open(p, 'w', encoding='utf-8')]: creates or truncates. *)
Definition open_w (p : string) : M unit := fun w =>
  if bool_decide (p ∈ fs_dirs w) then (Raise (OSError IsADirectoryError p), w)
  else if negb (parent_exists w p) then (Raise (OSError FileNotFoundError p), w)
  else if bool_decide (p ∈ fs_denied w) then (Raise (OSError PermissionError p), w)
  else (Ok (),
        {| fs_files := <[ p := "" ]> (fs_files w); fs_dirs := fs_dirs w;
           fs_denied := fs_denied w; calls := calls w |}).

(** [f.write(s)] on the file opened at [p]: appends to what is there. *)
Definition write (p s : string) : M unit := fun w =>
  (Ok (),
   {| fs_files := <[ p := default "" (fs_files w !! p) +:+ s ]> (fs_files w);
      fs_dirs := fs_dirs w; fs_denied := fs_denied w; calls := calls w |}).

End Os.

(** The result dictionary of the sequential workflow. *)
Record workflow_result := {
  marketing_plan : string;
  blog_content : string;
  context : gmap string value;
  status : string;
  files : gmap string string
}.

(** Lines 63-66 and 80-83 of chain.py: the emptiness check on a run and
    the extraction of the first part of its first message. *)
Definition first_content (msg : string) (run : Run) : result string :=
  match output run with
  | [] => Raise (ValueError msg)
  | m :: _ =>
      match parts m with
      | [] => Raise (ValueError msg)
      | p :: _ => Ok (content p)
      end
  end.

(** ** chain.py *)

Module Chain.
Section Chain.
Variable str_list : list string -> string.
Local Abbreviation str := (Py.str str_list).

Definition PLANNER_SERVER_URL : string := "http://localhost:8000".
Definition WRITER_SERVER_URL : string := "http://localhost:8001".

Definition DEFAULT_CONTEXT : gmap string value :=
  <[ "company_type" := VStr "AI startup" ]>
  (<[ "industry" := VStr "Marketing Technology" ]>
  (<[ "target_audience" := VStr "Marketing professionals, business owners, and growth teams" ]>
  (<[ "value_proposition" := VStr "AI-powered marketing optimization and content creation" ]>
  (<[ "key_benefits" := VList [ "Automated content generation"; "SEO optimization";
                                "Audience targeting"; "Performance analytics" ] ]> ∅)))).

(** [{**DEFAULT_CONTEXT, **(company_context or {})}] *)
Definition merge_context (company_context : option (gmap string value))
  : gmap string value :=
  default ∅ company_context ∪ DEFAULT_CONTEXT.

Definition create_planner_input (context : gmap string value)
    (specific_request : option string) : result string :=
  company_type ← getitem context "company_type";
  industry ← getitem context "industry";
  company_type' ← getitem context "company_type";
  industry' ← getitem context "industry";
  target_audience ← getitem context "target_audience";
  value_proposition ← getitem context "value_proposition";
  key_benefits ← getitem context "key_benefits";
  let base_prompt := text [
    "";
    "Create a comprehensive marketing strategy for " +:+ str company_type
      +:+ " in the " +:+ str industry +:+ " industry.";
    "";
    "COMPANY CONTEXT:";
    "- Company Type: " +:+ str company_type';
    "- Industry: " +:+ str industry';
    "- Target Audience: " +:+ str target_audience;
    "- Value Proposition: " +:+ str value_proposition;
    "- Key Benefits: " +:+ join ", " key_benefits;
    "";
    "SPECIFIC REQUEST: " +:+ or_default specific_request
      "Create a comprehensive marketing strategy to increase brand awareness and drive customer acquisition";
    "";
    "REQUIREMENTS:";
    "1. Research current marketing trends in the AI/tech industry";
    "2. Identify target audience segments and their pain points";
    "3. Develop a multi-channel marketing strategy";
    "4. Include specific tactics for:";
    "   - Content marketing";
    "   - Social media";
    "   - SEO optimization";
    "   - Lead generation";
    "   - Customer acquisition";
    "5. Provide measurable KPIs and success metrics";
    "6. Include budget allocation recommendations";
    "7. Timeline for implementation";
    "";
    "OUTPUT FORMAT:";
    "- Executive Summary";
    "- Market Analysis";
    "- Target Audience Analysis";
    "- Marketing Strategy Overview";
    "- Channel-Specific Tactics";
    "- Implementation Timeline";
    "- Budget Allocation";
    "- Success Metrics & KPIs";
    "- Risk Assessment";
    "" ] in
  mret (strip base_prompt).

Definition create_writer_input (marketing_plan : string)
    (context : gmap string value) : result string :=
  company_type ← getitem context "company_type";
  industry ← getitem context "industry";
  target_audience ← getitem context "target_audience";
  mret (text [
    "";
    "Write a compelling, SEO-optimized blog post based on the following marketing strategy.";
    "";
    "MARKETING STRATEGY:";
    marketing_plan;
    "";
    "COMPANY CONTEXT:";
    "- Company: " +:+ str company_type;
    "- Industry: " +:+ str industry;
    "- Target Audience: " +:+ str target_audience;
    "";
    "BLOG POST REQUIREMENTS:";
    "1. Create an engaging headline that includes relevant keywords";
    "2. Write a compelling introduction that hooks the reader";
    "3. Structure the content with clear headings and subheadings";
    "4. Include actionable insights and practical tips";
    "5. Optimize for SEO with relevant keywords naturally integrated";
    "6. Include a strong call-to-action";
    "7. Target length: 1000-1500 words";
    "8. Tone: Professional yet approachable";
    "9. Include relevant statistics and examples where appropriate";
    "";
    "IMPORTANT: Write the blog post in clean markdown format, ready-to-publish. Do NOT include labels like "
      +:+ dquote +:+ "SEO-Optimized Headline:" +:+ dquote +:+ " or "
      +:+ dquote +:+ "Meta Description:" +:+ dquote +:+ ". ";
    "Just write the actual blog post content with proper markdown formatting (headings, paragraphs, lists, etc.).";
    "Start directly with the main headline and content.";
    "" ]).

Definition run_marketing_workflow (net : remote)
    (company_context : option (gmap string value))
    (specific_request : option string) : M workflow_result :=
  let context := merge_context company_context in
  planner_input ← lift (create_planner_input context specific_request);
  (* Step 1: generate the marketing plan *)
  run1 ← run_sync net PLANNER_SERVER_URL "marketing_planner" planner_input;
  marketing_plan ← lift (first_content "No output received from marketing planner" run1);
  (* Step 2: generate the blog content *)
  writer_input ← lift (create_writer_input marketing_plan context);
  run2 ← run_sync net WRITER_SERVER_URL "supervisor_agent" writer_input;
  blog_content ← lift (first_content "No output received from blog writer" run2);
  (* Save outputs to files *)
  let output_dir := "marketing_outputs" in
  Os.makedirs output_dir;;
  let plan_filename := output_dir +:+ "/marketing_plan.md" in
  Os.open_w plan_filename;;
  Os.write plan_filename ("# Marketing Plan" +:+ nl +:+ nl);;
  company_type ← lift (getitem context "company_type");
  Os.write plan_filename ("**Company:** " +:+ str company_type +:+ nl);;
  industry ← lift (getitem context "industry");
  Os.write plan_filename ("**Industry:** " +:+ str industry +:+ nl +:+ nl);;
  Os.write plan_filename marketing_plan;;
  let blog_filename := output_dir +:+ "/blog_post.md" in
  Os.open_w blog_filename;;
  Os.write blog_filename ("# Blog Post" +:+ nl +:+ nl);;
  company_type ← lift (getitem context "company_type");
  Os.write blog_filename ("**Company:** " +:+ str company_type +:+ nl);;
  industry ← lift (getitem context "industry");
  Os.write blog_filename ("**Industry:** " +:+ str industry +:+ nl +:+ nl);;
  Os.write blog_filename blog_content;;
  mret {| marketing_plan := marketing_plan;
          blog_content := blog_content;
          context := context;
          status := "success";
          files := <[ "marketing_plan" := plan_filename ]>
                   (<[ "blog_post" := blog_filename ]> ∅) |}.

End Chain.
End Chain.


(** ** acp_crew.py *)

Module AcpCrew.
Section AcpCrew.
Variable str_list : list string -> string.
Local Abbreviation str := (Py.str str_list).

(** The acp_marketing.fastacp package is used but not defined by the
    orchestrator; its two entry points are parameters.
    [from_acp planner writer] is AgentCollection.from_acp and yields the
    (client, agent name) pairs of the collection; [acpagent_run tools q]
    is ACPCallingAgent(acp_agents=tools, model=model).run(q). *)
Variable from_acp : string -> string -> M (list (string * string)).
Variable acpagent_run : gmap string string -> string -> M string.

Definition PLANNER_SERVER_URL : string := "http://localhost:8000".
Definition WRITER_SERVER_URL : string := "http://localhost:8001".

Definition DEFAULT_CONTEXT : gmap string value :=
  <[ "company_type" := VStr "AI startup" ]>
  (<[ "industry" := VStr "Marketing Technology" ]>
  (<[ "target_audience" := VStr "Marketing professionals, business owners, and growth teams" ]>
  (<[ "value_proposition" := VStr "AI-powered marketing optimization and content creation" ]>
  (<[ "key_benefits" := VList [ "Automated content generation"; "SEO optimization";
                                "Audience targeting"; "Performance analytics" ] ]> ∅)))).

(** [{**DEFAULT_CONTEXT, **(company_context or {})}] *)
Definition merge_context (company_context : option (gmap string value))
  : gmap string value :=
  default ∅ company_context ∪ DEFAULT_CONTEXT.

Definition format_input_for_acp_orchestrator (context : gmap string value)
    (specific_request : option string) : result string :=
  company_type ← getitem context "company_type";
  industry ← getitem context "industry";
  company_type' ← getitem context "company_type";
  industry' ← getitem context "industry";
  target_audience ← getitem context "target_audience";
  value_proposition ← getitem context "value_proposition";
  key_benefits ← getitem context "key_benefits";
  let base_prompt := text [
    "";
    "Create a marketing blog post for " +:+ str company_type
      +:+ " in the " +:+ str industry +:+ " industry.";
    "";
    "COMPANY CONTEXT:";
    "- Company Type: " +:+ str company_type';
    "- Industry: " +:+ str industry';
    "- Target Audience: " +:+ str target_audience;
    "- Value Proposition: " +:+ str value_proposition;
    "- Key Benefits: " +:+ join ", " key_benefits;
    "";
    "SPECIFIC REQUEST: " +:+ or_default specific_request
      "Create a comprehensive marketing strategy to increase brand awareness and drive customer acquisition.";
    "";
    "REQUIREMENTS:";
    "- Research current marketing trends in the AI/tech industry.";
    "- Identify target audience segments and their pain points.";
    "- Develop a multi-channel marketing strategy.";
    "- Include specific tactics for:";
    "   - Content marketing";
    "   - Social media";
    "   - SEO optimization";
    "   - Lead generation";
    "   - Customer acquisition";
    "";
    "OUTPUT FORMAT:";
    "- Executive Summary";
    "- Market Analysis";
    "- Target Audience Analysis";
    "- Marketing Strategy Overview";
    "- Channel-Specific Tactics";
    "- Implementation Timeline";
    "- Budget Allocation";
    "- Success Metrics & KPIs";
    "- Risk Assessment";
    "" ] in
  mret (strip base_prompt).

(** The body has no return statement: the call evaluates to None,
    rendered here as the [None] of [option workflow_result]. *)
Definition run_marketing_workflow
    (company_context : option (gmap string value))
    (specific_request : option string) : M (option workflow_result) :=
  let context := merge_context company_context in
  (* agents discovery *)
  agents ← from_acp "http://localhost:8000" "http://localhost:8001";
  let acp_agents : gmap string string :=
    foldl (fun d ca => <[ ca.2 := ca.1 ]> d) ∅ agents in
  formatted_input ← lift (format_input_for_acp_orchestrator context specific_request);
  result ← acpagent_run acp_agents formatted_input;
  (* Save blog content *)
  let output_dir := "marketing_outputs" in
  Os.makedirs output_dir;;
  let blog_filename := output_dir +:+ "/blog_post.md" in
  Os.open_w blog_filename;;
  company_type ← lift (getitem context "company_type");
  Os.write blog_filename ("**Company:** " +:+ str company_type +:+ nl);;
  industry ← lift (getitem context "industry");
  Os.write blog_filename ("**Industry:** " +:+ str industry +:+ nl +:+ nl);;
  Os.write blog_filename result;;
  mret None.

End AcpCrew.
End AcpCrew.


(** ** Vocabulary of the statements *)

Definition output_dir : string := "marketing_outputs".
Definition plan_path : string := "marketing_outputs/marketing_plan.md".
Definition blog_path : string := "marketing_outputs/blog_post.md".

Definition planner_msg : string := "No output received from marketing planner".
Definition writer_msg : string := "No output received from blog writer".

(** The two requests of a sequential run. *)
Definition planner_call (pin : string) : call :=
  {| base_url := "http://localhost:8000"; agent := "marketing_planner"; input := pin |}.
Definition writer_call (win : string) : call :=
  {| base_url := "http://localhost:8001"; agent := "supervisor_agent"; input := win |}.

Definition log_call (c : call) (w : world) : world :=
  {| fs_files := fs_files w; fs_dirs := fs_dirs w; fs_denied := fs_denied w;
     calls := calls w ++ [c] |}.

(** How many of the requests sent so far named agent [a]. *)
Definition calls_to (a : string) (w : world) : nat :=
  length (filter (fun c => agent c = a) (calls w)).

(** A computation that sends no request. *)
Definition keeps_calls {A} (m : M A) : Prop :=
  forall w r w', m w = (r, w') -> calls w' = calls w.

(** A response without usable content: no output entry, or a first entry
    without parts. *)
Definition no_output (r : Run) : Prop :=
  output r = [] \/ exists m, head (output r) = Some m /\ parts m = [].

(** The text of the first part of the first output entry, if there is one. *)
Definition first_text (r : Run) : option string :=
  m ← head (output r); p ← head (parts m); Some (content p).

Definition with_file (p t : string) (w : world) : world :=
  {| fs_files := <[ p := t ]> (fs_files w); fs_dirs := fs_dirs w;
     fs_denied := fs_denied w; calls := calls w |}.

Definition ensure_dir (d : string) (w : world) : world :=
  if bool_decide (d ∈ fs_dirs w) then w
  else {| fs_files := fs_files w; fs_dirs := {[ d ]} ∪ fs_dirs w;
          fs_denied := fs_denied w; calls := calls w |}.

(** When the file system lets the run persist its two artifacts. *)
Definition can_makedirs (d : string) (w : world) : bool :=
  bool_decide (d ∈ fs_dirs w)
  || (negb (bool_decide (d ∈ dom (fs_files w))) && negb (bool_decide (d ∈ fs_denied w))).

Definition can_open (p : string) (w : world) : bool :=
  negb (bool_decide (p ∈ fs_dirs w)) && negb (bool_decide (p ∈ fs_denied w)).

Definition can_persist (w : world) : bool :=
  can_makedirs output_dir w && can_open plan_path w && can_open blog_path w.

(** The default request of each prompt builder. *)
Definition chain_default_request : string :=
  "Create a comprehensive marketing strategy to increase brand awareness and drive customer acquisition".
Definition crew_default_request : string :=
  "Create a comprehensive marketing strategy to increase brand awareness and drive customer acquisition.".

(** The fields each template reads, in the order it reads them. *)
Definition planner_fields : list string :=
  ["company_type"; "industry"; "target_audience"; "value_proposition"; "key_benefits"].
Definition writer_fields : list string :=
  ["company_type"; "industry"; "target_audience"].

Definition has_key (ctx : gmap string value) (k : string) : bool :=
  match ctx !! k with Some _ => true | None => false end.

Definition first_missing (fields : list string) (ctx : gmap string value) : option string :=
  List.find (fun k => negb (has_key ctx k)) fields.

Definition success (ctx : gmap string value) (plan blog : string) : workflow_result :=
  {| marketing_plan := plan; blog_content := blog; context := ctx;
     status := "success";
     files := <[ "marketing_plan" := plan_path ]> (<[ "blog_post" := blog_path ]> ∅) |}.

Section Vocabulary.
Variable str_list : list string -> string.
Local Abbreviation str := (Py.str str_list).

(** The text of the two output files: title, company and industry
    header, then the generated body. *)
Definition plan_document (ctx : gmap string value) (plan : string) : option string :=
  ct ← ctx !! "company_type"; ind ← ctx !! "industry";
  Some ("# Marketing Plan" +:+ nl +:+ nl +:+
        "**Company:** " +:+ str ct +:+ nl +:+
        "**Industry:** " +:+ str ind +:+ nl +:+ nl +:+ plan).

Definition blog_document (ctx : gmap string value) (blog : string) : option string :=
  ct ← ctx !! "company_type"; ind ← ctx !! "industry";
  Some ("# Blog Post" +:+ nl +:+ nl +:+
        "**Company:** " +:+ str ct +:+ nl +:+
        "**Industry:** " +:+ str ind +:+ nl +:+ nl +:+ blog).

(** The planner stage of chain.py: build the prompt, call the planner
    endpoint, validate and extract. *)
Definition planner_stage (net : remote) (cc : option (gmap string value))
    (req : option string) : result string :=
  pin ← Chain.create_planner_input str_list (Chain.merge_context cc) req;
  net "http://localhost:8000" "marketing_planner" pin ≫= first_content planner_msg.

(** The writer stage, given the plan text. *)
Definition writer_stage (net : remote) (cc : option (gmap string value))
    (plan : string) : result string :=
  win ← Chain.create_writer_input str_list plan (Chain.merge_context cc);
  net "http://localhost:8001" "supervisor_agent" win ≫= first_content writer_msg.

(** Both stages in order. *)
Definition generation (net : remote) (cc : option (gmap string value))
    (req : option string) : result (string * string) :=
  plan ← planner_stage net cc req;
  blog ← writer_stage net cc plan;
  mret (plan, blog).

(** Lines 87-119 of chain.py, the part of the run after both stages. *)
Definition persist (ctx : gmap string value) (marketing_plan blog_content : string)
    : M workflow_result :=
  Os.makedirs output_dir;;
  Os.open_w plan_path;;
  Os.write plan_path ("# Marketing Plan" +:+ nl +:+ nl);;
  company_type ← lift (getitem ctx "company_type");
  Os.write plan_path ("**Company:** " +:+ str company_type +:+ nl);;
  industry ← lift (getitem ctx "industry");
  Os.write plan_path ("**Industry:** " +:+ str industry +:+ nl +:+ nl);;
  Os.write plan_path marketing_plan;;
  Os.open_w blog_path;;
  Os.write blog_path ("# Blog Post" +:+ nl +:+ nl);;
  company_type ← lift (getitem ctx "company_type");
  Os.write blog_path ("**Company:** " +:+ str company_type +:+ nl);;
  industry ← lift (getitem ctx "industry");
  Os.write blog_path ("**Industry:** " +:+ str industry +:+ nl +:+ nl);;
  Os.write blog_path blog_content;;
  mret (success ctx marketing_plan blog_content).

End Vocabulary.

(** ** Sample inputs for the examples *)

(** A stand-in for str() on lists; no example below renders a list. *)
Definition sample_str_list (l : list string) : string :=
  "[" +:+ String.concat ", " l +:+ "]".

(** Stub endpoints: the planner answers [p], every other agent [b]. *)
Definition stub_net (p b : Run) : remote := fun url agent input =>
  if String.eqb agent "marketing_planner" then Ok p else Ok b.

Definition sample_net : remote := stub_net (reply "PLAN_X") (reply "BLOG_Y").

Definition empty_run : Run := {| output := [] |}.
Definition partless_run : Run := {| output := [ {| parts := [] |} ] |}.

Definition fresh_world : world :=
  {| fs_files := ∅; fs_dirs := ∅; fs_denied := ∅; calls := [] |}.

(** A world where the blog file may not be written. *)
Definition blog_denied_world : world :=
  {| fs_files := ∅; fs_dirs := ∅; fs_denied := {[ blog_path ]}; calls := [] |}.

(** The default context without its value proposition. *)
Definition context_without_value_proposition : gmap string value :=
  delete "value_proposition" Chain.DEFAULT_CONTEXT.

(** Discovery stubs: one agent per endpoint, and a calling agent that
    answers [final] without touching the world. *)
Definition stub_from_acp (planner writer : string) : M (list (string * string)) :=
  mret [ (planner, "marketing_planner"); (writer, "supervisor_agent") ].
Definition stub_acpagent (final : string) (tools : gmap string string) (q : string)
    : M string :=
  mret final.


(** ** planner_server.py and writer_server.py *)

(** The part of crewai the servers use.  The language model handle and
    what a crew does once started are outside the repository: the handle
    has an abstract type and the crew's outcome is a parameter of the
    agents.  So is the construction of an agent object, Agent(...) with
    the tool objects it is given, which validates its arguments and can
    raise.  Task and Crew objects are built from the agent objects and
    constant text after the input has been read. *)
Module Crewai.

Inductive tool : Type := SerperDevTool | WebsiteSearchTool.

Record Agent (LLM : Type) := {
  role : string;
  goal : string;
  backstory : string;
  verbose : bool;
  allow_delegation : bool;
  llm : LLM;
  tools : list tool;
  max_retry_limit : nat
}.

Record Task (LLM : Type) := {
  description : string;
  expected_output : string;
  agent : Agent LLM
}.

Record Crew (LLM : Type) := {
  agents : list (Agent LLM);
  tasks : list (Task LLM);
  crew_verbose : bool
}.

Arguments description {LLM} _.
Arguments expected_output {LLM} _.
Arguments agent {LLM} _.
Arguments agents {LLM} _.
Arguments tasks {LLM} _.
Arguments tools {LLM} _.

(** What can leave a server agent: the IndexError of a subscript out of
    range, what the construction of an agent object raised, or whatever
    the crew raised. *)
Inductive server_exn : Type :=
| IndexError
| ConstructorError (detail : string)
| CrewError (detail : string).

Inductive outcome (A : Type) : Type :=
| Done (a : A)
| Failed (e : server_exn).
Arguments Done {A} a.
Arguments Failed {A} e.

(** A server agent runs over the list of the crews started so far. *)
Definition SM (LLM : Type) (A : Type) : Type :=
  list (Crew LLM) -> outcome A * list (Crew LLM).

#[global] Instance SM_ret {LLM} : MRet (SM LLM) := fun A a started => (Done a, started).
#[global] Instance SM_bind {LLM} : MBind (SM LLM) := fun A B f m started =>
  match m started with
  | (Done a, started') => f a started'
  | (Failed e, started') => (Failed e, started')
  end.

Definition lift {LLM A} (r : outcome A) : SM LLM A := fun started => (r, started).

(** [await crew.kickoff_async()], then [str] of its result. *)
Definition kickoff_async {LLM} (kickoff : Crew LLM -> outcome string)
    (crew : Crew LLM) : SM LLM string := fun started =>
  (kickoff crew, (started ++ [crew])%list).

(** [input[0].parts[0].content] *)
Definition first_part_content (input : list Message) : outcome string :=
  match input with
  | [] => Failed IndexError
  | m :: _ =>
      match parts m with
      | [] => Failed IndexError
      | p :: _ => Done (content p)
      end
  end.

End Crewai.

Module PlannerServer.
Import Crewai.
Section PlannerServer.
Context {LLM : Type} (llm : LLM).
(** [new_agent a] is the constructor call Agent(...) with the fields of
    [a], tool constructors included: the agent object, or the exception
    raised. *)
Context (new_agent : Agent LLM -> outcome (Agent LLM)).
Context (kickoff : Crew LLM -> outcome string).

Definition marketing_planner (input : list Message) : SM LLM (list Message) :=
  market_researcher ← lift (new_agent
    {| role := "Market Research Analyst";
       goal := "Conduct comprehensive market research and competitive analysis to identify opportunities and trends";
       backstory := "You are a senior market research analyst with 8+ years of experience in digital marketing research. You specialize in competitive analysis, trend identification, and market opportunity assessment. You have helped numerous companies understand their market position and identify growth opportunities. You excel at gathering and analyzing data from multiple sources to provide actionable insights.";
       verbose := true;
       allow_delegation := false;
       Crewai.llm := llm;
       tools := [SerperDevTool; WebsiteSearchTool];
       max_retry_limit := 3 |});
  strategy_consultant ← lift (new_agent
    {| role := "Senior Marketing Strategy Consultant";
       goal := "Develop comprehensive marketing strategies and tactical plans based on research insights";
       backstory := "You are a senior marketing strategy consultant with 12+ years of experience in digital marketing. You have helped Fortune 500 companies and startups develop successful marketing strategies. You specialize in multi-channel marketing, customer journey optimization, and ROI-driven campaigns. You understand how to translate market insights into actionable marketing plans that drive results.";
       verbose := true;
       allow_delegation := false;
       Crewai.llm := llm;
       tools := [SerperDevTool; WebsiteSearchTool];
       max_retry_limit := 3 |});
  content ← lift (first_part_content input);
  let research_task : Task LLM :=
    {| description := text [
           "Conduct comprehensive market research for: " +:+ content;
           "";
           "Research Requirements:";
           "1. Market size and growth trends";
           "2. Competitive landscape analysis";
           "3. Target audience demographics and behavior";
           "4. Industry best practices and emerging trends";
           "5. Potential challenges and opportunities";
           "6. Relevant case studies and success stories";
           "";
           "Provide detailed findings with data sources and actionable insights." ];
       expected_output := text [
           "A comprehensive market research report including:";
           "- Market overview and size";
           "- Competitive analysis";
           "- Target audience insights";
           "- Industry trends and opportunities";
           "- Relevant case studies";
           "- Data sources and methodology" ];
       agent := market_researcher |} in
  let strategy_task : Task LLM :=
    {| description := text [
           "Based on the market research findings, develop a comprehensive marketing plan.";
           "";
           "Strategy Requirements:";
           "1. Executive Summary";
           "2. Market Analysis Summary";
           "3. Target Audience Analysis";
           "4. Marketing Strategy Overview";
           "5. Channel-Specific Tactics:";
           "   - Content Marketing";
           "   - Social Media Marketing";
           "   - SEO Strategy";
           "   - Paid Advertising";
           "   - Email Marketing";
           "   - Influencer Marketing";
           "6. Implementation Timeline (3-6 months)";
           "7. Budget Allocation Recommendations";
           "8. Success Metrics & KPIs";
           "9. Risk Assessment & Mitigation";
           "10. ROI Projections";
           "";
           "Format as a professional marketing plan document." ];
       expected_output := text [
           "A complete marketing plan document with:";
           "- Executive summary";
           "- Detailed strategy sections";
           "- Implementation timeline";
           "- Budget breakdown";
           "- Success metrics";
           "- Risk assessment";
           "- Professional formatting and structure" ];
       agent := strategy_consultant |} in
  let crew : Crew LLM :=
    {| agents := [market_researcher; strategy_consultant];
       tasks := [research_task; strategy_task];
       crew_verbose := true |} in
  task_output ← kickoff_async kickoff crew;
  mret [ {| parts := [ {| content := task_output |} ] |} ].

End PlannerServer.
End PlannerServer.

Module WriterServer.
Import Crewai.
Section WriterServer.
Context {LLM : Type} (llm : LLM).
Context (new_agent : Agent LLM -> outcome (Agent LLM)).
Context (kickoff : Crew LLM -> outcome string).

Definition blog_writer (input : list Message) : SM LLM (list Message) :=
  content_writer ← lift (new_agent
    {| role := "Senior Content Marketing Specialist";
       goal := "Create high-converting, SEO-optimized blog posts that drive engagement and conversions";
       backstory := "You are a senior content marketing specialist with 10+ years of experience in digital marketing and content creation. You have a proven track record of creating viral blog posts that generate millions of views and thousands of leads. You specialize in tech and marketing content, with deep expertise in SEO, conversion optimization, and audience engagement. You understand how to write content that ranks well in search engines while maintaining high readability and engagement rates. You have helped numerous startups and tech companies build their content marketing strategies and achieve significant growth through content-driven lead generation.";
       verbose := true;
       allow_delegation := false;
       Crewai.llm := llm;
       tools := [SerperDevTool; WebsiteSearchTool];
       max_retry_limit := 3 |});
  content ← lift (first_part_content input);
  let task : Task LLM :=
    {| description := content;
       expected_output := text [
           "Write a complete, SEO-optimized blog post (1000-1500 words) with:";
           "- Engaging headline and meta description";
           "- Compelling introduction";
           "- Well-structured content with clear headings";
           "- Actionable insights and examples";
           "- Strong conclusion with call-to-action";
           "- Natural keyword integration";
           "- SEO considerations and internal linking suggestions";
           "- Meta tags and schema markup recommendations";
           "";
           "Include all the technical SEO elements and meta-information that would be useful for publishing." ];
       agent := content_writer |} in
  let crew : Crew LLM :=
    {| agents := [content_writer];
       tasks := [task];
       crew_verbose := true |} in
  task_output ← kickoff_async kickoff crew;
  mret [ {| parts := [ {| content := task_output |} ] |} ].

Definition supervisor_agent (input : list Message) : SM LLM (list Message) :=
  supervisor ← lift (new_agent
    {| role := "Content Editor and Publisher";
       goal := "Transform raw blog content into clean, ready-to-publish format";
       backstory := "You are an experienced content editor and publisher with expertise in preparing content for publication. You understand the difference between raw content with instructions and clean, publishable content. You excel at removing meta-information, formatting guidelines, and technical instructions while preserving the core message and value of the content. You ensure content is properly formatted for immediate use in content management systems, blogs, and other publishing platforms.";
       verbose := true;
       allow_delegation := false;
       Crewai.llm := llm;
       tools := [];
       max_retry_limit := 3 |});
  content ← lift (first_part_content input);
  let task : Task LLM :=
    {| description := text [
           "Take the following blog content and convert it to a clean, ready-to-publish format:";
           "";
           content;
           "";
           "Your task is to:";
           "1. Remove all meta-instructions and formatting guidelines";
           "2. Remove 'SEO Considerations' sections";
           "3. Remove 'Internal Linking Suggestions' sections";
           "4. Remove 'Meta Tags and Schema Markup Suggestions' sections";
           "5. Remove keyword lists and technical SEO instructions";
           "6. Keep only the actual blog post content";
           "7. Ensure proper markdown formatting";
           "8. Start with the main headline";
           "9. End with a strong conclusion and call-to-action";
           "10. Make sure the content flows naturally without any meta-information";
           "";
           "Output ONLY the clean, ready-to-publish blog post content." ];
       expected_output := text [
           "A clean, ready-to-publish blog post in markdown format that includes:";
           "- Main headline";
           "- Introduction";
           "- Well-structured content with headings";
           "- Conclusion with call-to-action";
           "- No meta-instructions or technical guidelines";
           "- No SEO considerations or keyword lists";
           "- No formatting instructions";
           "- Content that can be directly copied and pasted into a CMS" ];
       agent := supervisor |} in
  let crew : Crew LLM :=
    {| agents := [supervisor];
       tasks := [task];
       crew_verbose := true |} in
  task_output ← kickoff_async kickoff crew;
  mret [ {| parts := [ {| content := task_output |} ] |} ].

End WriterServer.
End WriterServer.


(** ** Vocabulary of the further properties *)

(** What a run may change in the file system: the two output files, and
    the output directory coming into being. *)
Definition outputs_only (w w' : world) : Prop :=
  (forall q, q <> plan_path -> q <> blog_path -> fs_files w' !! q = fs_files w !! q)
  /\ fs_denied w' = fs_denied w
  /\ fs_dirs w ⊆ fs_dirs w'
  /\ fs_dirs w' ⊆ {[ output_dir ]} ∪ fs_dirs w.

Definition respects_outputs {A} (m : M A) : Prop :=
  forall w r w', m w = (r, w') -> outputs_only w w'.

(** The dictionary comprehension of acp_crew.py, line 64: agent name to
    client, a later pair replacing an earlier one of the same name. *)
Definition acp_agents_of (agents : list (string * string)) : gmap string string :=
  foldl (fun d ca => <[ ca.2 := ca.1 ]> d) ∅ agents.

(** The client of the last pair of the collection carrying name [n]. *)
Fixpoint last_client (n : string) (agents : list (string * string)) : option string :=
  match agents with
  | [] => None
  | ca :: rest =>
      match last_client n rest with
      | Some c => Some c
      | None => if bool_decide (ca.2 = n) then Some ca.1 else None
      end
  end.

(** The messages an agent yields, seen by the client as the output of
    the run. *)
Definition run_of (yielded : list Message) : Run := {| output := yielded |}.

(** An agent that, whenever it answers, has started exactly one crew and
    yields exactly one message with exactly one part, the text of that
    crew, which the client's check accepts. *)
Definition answers_with_crew_text {LLM : Type}
    (kickoff : Crewai.Crew LLM -> Crewai.outcome string)
    (agent : list Message -> Crewai.SM LLM (list Message)) : Prop :=
  forall input started yielded started',
    agent input started = (Crewai.Done yielded, started') ->
    exists crew text,
      kickoff crew = Crewai.Done text
      /\ started' = (started ++ [crew])%list
      /\ yielded = [ {| parts := [ {| content := text |} ] |} ]
      /\ forall msg, first_content msg (run_of yielded) = Ok text.

(** Lines of a text before and after a line of it: each line with the
    line break that follows, respectively precedes, it. *)
Fixpoint lines_before (l : list string) : string :=
  match l with
  | [] => ""
  | x :: r => x +:+ nl +:+ lines_before r
  end.

Fixpoint lines_after (l : list string) : string :=
  match l with
  | [] => ""
  | x :: r => nl +:+ x +:+ lines_after r
  end.

Definition starts_nonspace (s : string) : bool :=
  match s with
  | "" => false
  | String c _ => negb (isspace c)
  end.


Section DiscoveryVocabulary.
Variable str_list : list string -> string.

(** The text of blog_post.md in discovery mode: header and body, no
    title line. *)
Definition crew_document (ctx : gmap string value) (body : string) : option string :=
  ct ← ctx !! "company_type"; ind ← ctx !! "industry";
  Some ("**Company:** " +:+ Py.str str_list ct +:+ nl +:+
        "**Industry:** " +:+ Py.str str_list ind +:+ nl +:+ nl +:+ body).

(** Lines 78-86 of acp_crew.py, the part of the run after the calling
    agent has answered. *)
Definition crew_persist (ctx : gmap string value) (result : string)
    : M (option workflow_result) :=
  Os.makedirs output_dir;;
  Os.open_w blog_path;;
  company_type ← lift (getitem ctx "company_type");
  Os.write blog_path ("**Company:** " +:+ Py.str str_list company_type +:+ nl);;
  industry ← lift (getitem ctx "industry");
  Os.write blog_path ("**Industry:** " +:+ Py.str str_list industry +:+ nl +:+ nl);;
  Os.write blog_path result;;
  mret None.

End DiscoveryVocabulary.

(** Sample inputs of the further examples. *)
Definition failing_net (e : exn) : remote := fun url agent input => Raise e.

Definition writer_failing_net (e : exn) : remote := fun url agent input =>
  if String.eqb agent "marketing_planner" then Ok (reply "PLAN_X") else Raise e.

Definition occupied_world : world :=
  {| fs_files := {[ output_dir := "not a directory" ]}; fs_dirs := ∅;
     fs_denied := ∅; calls := [] |}.

Definition colliding_agents : list (string * string) :=
  [ ("http://localhost:8000", "helper"); ("http://localhost:8001", "helper") ].

Definition failing_from_acp (e : exn) (planner writer : string)
    : M (list (string * string)) :=
  fun w => (Raise e, w).

Definition two_part_input : list Message :=
  [ {| parts := [ {| content := "X" |}; {| content := "ignored" |} ] |};
    {| parts := [ {| content := "also ignored" |} ] |} ].

Definition colliding_from_acp (planner writer : string) : M (list (string * string)) :=
  mret colliding_agents.

Definition sample_kickoff (crew : Crewai.Crew unit) : Crewai.outcome string :=
  Crewai.Done "OUT".

Definition sample_new_agent (a : Crewai.Agent unit) : Crewai.outcome (Crewai.Agent unit) :=
  Crewai.Done a.



(** ** The string helpers on small inputs *)

Example strip_example : strip (nl +:+ " a b " +:+ nl) = "a b".
Proof. reflexivity. Qed.

Example join_example :
  join ", " (VList ["x"; "y"; "z"]) = "x, y, z" /\ join ", " (VStr "xyz") = "x, y, z".
Proof. split; reflexivity. Qed.

Example first_content_example :
  first_content planner_msg (reply "PLAN_X") = Ok "PLAN_X"
  /\ first_content planner_msg empty_run = Raise (ValueError planner_msg)
  /\ first_content planner_msg partless_run = Raise (ValueError planner_msg).
Proof. repeat split. Qed.

(** ** Stepping lemmas for the monad and the file system *)

Lemma M_bind_unfold {A B} (m : M A) (f : A -> M B) (w : world) :
  (m ≫= f) w =
  match m w with
  | (Ok a, w') => f a w'
  | (Raise e, w') => (Raise e, w')
  end.
Proof. reflexivity. Qed.

Lemma result_bind_Ok {A B} (a : A) (f : A -> result B) : Ok a ≫= f = f a.
Proof. reflexivity. Qed.

Lemma result_bind_Ok_inv {A B} (m : result A) (f : A -> result B) (b : B) :
  m ≫= f = Ok b -> exists a, m = Ok a /\ f a = Ok b.
Proof. destruct m as [a|e]; [|done]. intros H. by exists a. Qed.

Lemma M_bind_Ok_inv {A B} (m : M A) (f : A -> M B) (w : world) (b : B) (w' : world) :
  (m ≫= f) w = (Ok b, w') -> exists a w1, m w = (Ok a, w1) /\ f a w1 = (Ok b, w').
Proof.
  rewrite M_bind_unfold. destruct (m w) as [[a|e] w1]; [|done].
  intros H. by exists a, w1.
Qed.

Lemma lift_bind {A B} (r : result A) (f : A -> M B) (w : world) :
  (lift r ≫= f) w =
  match r with
  | Ok a => f a w
  | Raise e => (Raise e, w)
  end.
Proof. rewrite M_bind_unfold. unfold lift. by destruct r. Qed.

Lemma lift_Ok_bind {A B} (a : A) (f : A -> M B) (w : world) :
  (lift (Ok a) ≫= f) w = f a w.
Proof. reflexivity. Qed.

Lemma run_sync_bind {B} net url agent input (f : Run -> M B) (w : world) :
  (run_sync net url agent input ≫= f) w =
  let w' := log_call {| base_url := url; agent := agent; input := input |} w in
  match net url agent input with
  | Ok r => f r w'
  | Raise e => (Raise e, w')
  end.
Proof.
  rewrite M_bind_unfold. unfold run_sync, log_call.
  by destruct (net url agent input).
Qed.

Lemma append_assoc (a b c : string) : (a +:+ b) +:+ c = a +:+ (b +:+ c).
Proof.
  induction a as [|x a IH]; [done|].
  change (String x ((a +:+ b) +:+ c) = String x (a +:+ (b +:+ c))).
  by rewrite IH.
Qed.

Lemma getitem_Some ctx k v : ctx !! k = Some v -> getitem ctx k = Ok v.
Proof. unfold getitem. by intros ->. Qed.

Lemma makedirs_ok d w :
  can_makedirs d w = true -> Os.makedirs d w = (Ok (), ensure_dir d w).
Proof.
  unfold can_makedirs, Os.makedirs, ensure_dir.
  destruct (bool_decide (d ∈ fs_dirs w)); [done|].
  destruct (bool_decide (d ∈ dom (fs_files w))); [done|].
  by destruct (bool_decide (d ∈ fs_denied w)).
Qed.

Lemma makedirs_fail d w :
  can_makedirs d w = false -> exists k, Os.makedirs d w = (Raise (OSError k d), w).
Proof.
  unfold can_makedirs, Os.makedirs.
  destruct (bool_decide (d ∈ fs_dirs w)); [done|].
  destruct (bool_decide (d ∈ dom (fs_files w))); [by eexists|].
  destruct (bool_decide (d ∈ fs_denied w)); [by eexists|done].
Qed.

Lemma ensure_dir_files d w : fs_files (ensure_dir d w) = fs_files w.
Proof. unfold ensure_dir. by case_bool_decide. Qed.

Lemma ensure_dir_denied d w : fs_denied (ensure_dir d w) = fs_denied w.
Proof. unfold ensure_dir. by case_bool_decide. Qed.

Lemma ensure_dir_dirs d w : fs_dirs (ensure_dir d w) = {[ d ]} ∪ fs_dirs w.
Proof.
  unfold ensure_dir. case_bool_decide as Hd; [|done].
  apply set_eq. intros x. rewrite elem_of_union, elem_of_singleton.
  split; [by right|]. by intros [->|?].
Qed.

Lemma ensure_dir_present d w : d ∈ fs_dirs w -> ensure_dir d w = w.
Proof. intros Hd. unfold ensure_dir. by rewrite bool_decide_eq_true_2. Qed.

Lemma open_w_ok p w :
  can_open p w = true -> Os.parent_exists w p = true ->
  Os.open_w p w = (Ok (), with_file p "" w).
Proof.
  unfold can_open, Os.open_w. intros Hc Hp. rewrite Hp.
  destruct (bool_decide (p ∈ fs_dirs w)); [done|].
  by destruct (bool_decide (p ∈ fs_denied w)).
Qed.

Lemma open_w_fail p w :
  can_open p w = false -> exists k, Os.open_w p w = (Raise (OSError k p), w).
Proof.
  unfold can_open, Os.open_w.
  destruct (bool_decide (p ∈ fs_dirs w)); [by eexists|].
  destruct (negb (Os.parent_exists w p)); [by eexists|].
  destruct (bool_decide (p ∈ fs_denied w)); [by eexists|done].
Qed.

Lemma write_with_file p t s w :
  Os.write p s (with_file p t w) = (Ok (), with_file p (t +:+ s) w).
Proof.
  unfold Os.write, with_file. cbn [fs_files fs_dirs fs_denied calls].
  by rewrite lookup_insert_eq, insert_insert_eq.
Qed.

(** [open] in mode w truncates, at every path: what a file held before
    is gone after it has been opened and written again. *)
Lemma open_w_overwrites p t1 t2 w :
  can_open p w = true -> Os.parent_exists w p = true ->
  (Os.open_w p;; Os.write p t2) (with_file p t1 w) = (Ok (), with_file p t2 w).
Proof.
  intros Hc Hp. rewrite M_bind_unfold, open_w_ok by done.
  rewrite write_with_file. unfold with_file. cbn [fs_files fs_dirs fs_denied calls].
  by rewrite insert_insert_eq.
Qed.

Lemma can_open_ensure_dir p d w :
  p <> d -> can_open p (ensure_dir d w) = can_open p w.
Proof.
  intros Hne. unfold can_open. rewrite ensure_dir_dirs, ensure_dir_denied.
  f_equal. f_equal. apply bool_decide_ext.
  rewrite elem_of_union, elem_of_singleton.
  split; [by intros [?|?] | by right].
Qed.

Lemma parent_exists_output p w :
  Os.dirname p = Some output_dir ->
  Os.parent_exists (ensure_dir output_dir w) p = true.
Proof.
  intros Hd. unfold Os.parent_exists. rewrite Hd. unfold output_dir at 1.
  apply bool_decide_eq_true. rewrite ensure_dir_dirs.
  apply elem_of_union_l. by apply elem_of_singleton.
Qed.

Lemma first_text_content msg r :
  first_content msg r =
  match first_text r with
  | Some t => Ok t
  | None => Raise (ValueError msg)
  end.
Proof.
  unfold first_content, first_text.
  destruct (output r) as [|m ms]; [done|]. cbn.
  by destruct (parts m).
Qed.

Lemma first_text_None r : first_text r = None <-> no_output r.
Proof.
  unfold first_text, no_output.
  destruct (output r) as [|m ms]; cbn.
  - split; [by left|done].
  - destruct (parts m) as [|p ps] eqn:Hp; cbn.
    + split; [|done]. intros _. right. by exists m.
    + split; [done|]. intros [?|(m' & [= <-] & Hm)]; congruence.
Qed.

(** The file operations and the pure steps send no request. *)
Lemma keeps_calls_ret {A} (a : A) : keeps_calls (mret a).
Proof. by intros w r w' [= _ <-]. Qed.

Lemma keeps_calls_lift {A} (x : result A) : keeps_calls (lift x).
Proof. by intros w r w' [= _ <-]. Qed.

Lemma keeps_calls_bind {A B} (m : M A) (f : A -> M B) :
  keeps_calls m -> (forall a, keeps_calls (f a)) -> keeps_calls (m ≫= f).
Proof.
  intros Hm Hf w r w'. rewrite M_bind_unfold.
  destruct (m w) as [[a|e] w1] eqn:Hmw.
  - intros Hfa. rewrite (Hf _ _ _ _ Hfa). by apply (Hm _ _ _ Hmw).
  - intros [= _ <-]. by apply (Hm _ _ _ Hmw).
Qed.

Lemma keeps_calls_makedirs d : keeps_calls (Os.makedirs d).
Proof.
  intros w r w'. unfold Os.makedirs.
  repeat case_bool_decide; by intros [= _ <-].
Qed.

Lemma keeps_calls_open_w p : keeps_calls (Os.open_w p).
Proof.
  intros w r w'. unfold Os.open_w.
  case_bool_decide; [by intros [= _ <-]|].
  destruct (negb (Os.parent_exists w p)); [by intros [= _ <-]|].
  case_bool_decide; by intros [= _ <-].
Qed.

Lemma keeps_calls_write p t : keeps_calls (Os.write p t).
Proof. by intros w r w' [= _ <-]. Qed.

Create HintDb calls.
#[global] Hint Resolve keeps_calls_ret keeps_calls_lift keeps_calls_makedirs
  keeps_calls_open_w keeps_calls_write : calls.

(** ** The merged context *)

Lemma merge_context_lookup cc k :
  Chain.merge_context cc !! k =
  match default ∅ cc !! k with
  | Some v => Some v
  | None => Chain.DEFAULT_CONTEXT !! k
  end.
Proof.
  unfold Chain.merge_context. rewrite lookup_union.
  destruct (default ∅ cc !! k), (Chain.DEFAULT_CONTEXT !! k); done.
Qed.

Lemma merge_context_has cc k :
  In k planner_fields -> exists v, Chain.merge_context cc !! k = Some v.
Proof.
  intros Hk. rewrite merge_context_lookup.
  destruct (default ∅ cc !! k) as [v|]; [by exists v|].
  cbn in Hk. destruct Hk as [<-|[<-|[<-|[<-|[<-|[]]]]]]; by eexists.
Qed.

Lemma first_missing_absent fields ctx k :
  first_missing fields ctx = Some k -> In k fields /\ ctx !! k = None.
Proof.
  unfold first_missing. intros [Hin Hk]%List.find_some. split; [done|].
  unfold has_key in Hk. by destruct (ctx !! k).
Qed.

(** One [f.write] of the persisting part, on a file just written. *)
Ltac write_step := rewrite M_bind_unfold, write_with_file.

Section Sequential.
Variable str_list : list string -> string.
Local Abbreviation str := (Py.str str_list).
Local Abbreviation create_planner_input := (Chain.create_planner_input str_list).
Local Abbreviation create_writer_input := (Chain.create_writer_input str_list).
Local Abbreviation run_marketing_workflow := (Chain.run_marketing_workflow str_list).

Lemma planner_input_reads ctx req :
  match first_missing planner_fields ctx with
  | Some k => create_planner_input ctx req = Raise (KeyError k)
  | None => exists s, create_planner_input ctx req = Ok s
  end.
Proof.
  unfold first_missing, planner_fields, has_key, Chain.create_planner_input, getitem.
  cbn [List.find].
  destruct (ctx !! "company_type"); cbn [negb]; [|done].
  destruct (ctx !! "industry"); cbn [negb]; [|done].
  destruct (ctx !! "target_audience"); cbn [negb]; [|done].
  destruct (ctx !! "value_proposition"); cbn [negb]; [|done].
  destruct (ctx !! "key_benefits"); cbn [negb]; [|done].
  eexists. reflexivity.
Qed.

Lemma writer_input_reads plan ctx :
  match first_missing writer_fields ctx with
  | Some k => create_writer_input plan ctx = Raise (KeyError k)
  | None => exists s, create_writer_input plan ctx = Ok s
  end.
Proof.
  unfold first_missing, writer_fields, has_key, Chain.create_writer_input, getitem.
  cbn [List.find].
  destruct (ctx !! "company_type"); cbn [negb]; [|done].
  destruct (ctx !! "industry"); cbn [negb]; [|done].
  destruct (ctx !! "target_audience"); cbn [negb]; [|done].
  eexists. reflexivity.
Qed.

Lemma merged_none_missing cc fields :
  (forall k, In k fields -> In k planner_fields) ->
  first_missing fields (Chain.merge_context cc) = None.
Proof.
  intros Hsub. unfold first_missing.
  destruct (List.find _ fields) as [k|] eqn:Hf; [|done].
  apply List.find_some in Hf as [Hin Hk].
  destruct (merge_context_has cc k (Hsub k Hin)) as [v Hv].
  unfold has_key in Hk. by rewrite Hv in Hk.
Qed.

(** On a merged context neither prompt builder can fail. *)
Lemma planner_input_merged cc req :
  exists pin, create_planner_input (Chain.merge_context cc) req = Ok pin.
Proof.
  pose proof (planner_input_reads (Chain.merge_context cc) req) as H.
  by rewrite merged_none_missing in H.
Qed.

Lemma writer_input_merged plan cc :
  exists win, create_writer_input plan (Chain.merge_context cc) = Ok win.
Proof.
  pose proof (writer_input_reads plan (Chain.merge_context cc)) as H.
  rewrite merged_none_missing in H; [done|].
  unfold writer_fields, planner_fields. cbn. tauto.
Qed.

Lemma documents_merged cc plan blog :
  exists pdoc bdoc,
    plan_document str_list (Chain.merge_context cc) plan = Some pdoc /\
    blog_document str_list (Chain.merge_context cc) blog = Some bdoc.
Proof.
  unfold plan_document, blog_document.
  destruct (merge_context_has cc "company_type") as [ct ->]; [cbn; tauto|].
  destruct (merge_context_has cc "industry") as [ind ->]; [cbn; tauto|].
  cbn. eauto.
Qed.

(** The run, stage by stage. *)
Lemma run_unfold net cc req w :
  run_marketing_workflow net cc req w =
  let ctx := Chain.merge_context cc in
  match create_planner_input ctx req with
  | Raise e => (Raise e, w)
  | Ok pin =>
    let w1 := log_call (planner_call pin) w in
    match net "http://localhost:8000" "marketing_planner" pin
            ≫= first_content planner_msg with
    | Raise e => (Raise e, w1)
    | Ok plan =>
      match create_writer_input plan ctx with
      | Raise e => (Raise e, w1)
      | Ok win =>
        let w2 := log_call (writer_call win) w1 in
        match net "http://localhost:8001" "supervisor_agent" win
                ≫= first_content writer_msg with
        | Raise e => (Raise e, w2)
        | Ok blog => persist str_list ctx plan blog w2
        end
      end
    end
  end.
Proof.
  unfold Chain.run_marketing_workflow, Chain.PLANNER_SERVER_URL, Chain.WRITER_SERVER_URL.
  cbv zeta.
  rewrite lift_bind.
  destruct (create_planner_input _ req) as [pin|e]; [|done].
  rewrite run_sync_bind. cbv zeta. fold (planner_call pin).
  destruct (net _ _ pin) as [r1|e]; [|done].
  rewrite result_bind_Ok, lift_bind. fold planner_msg.
  destruct (first_content _ r1) as [plan|e]; [|done].
  rewrite lift_bind.
  destruct (create_writer_input plan _) as [win|e]; [|done].
  rewrite run_sync_bind. cbv zeta. fold (writer_call win).
  destruct (net _ _ win) as [r2|e]; [|done].
  rewrite result_bind_Ok, lift_bind. fold writer_msg.
  destruct (first_content _ r2) as [blog|e]; [|done].
  reflexivity.
Qed.

Lemma persist_ok ctx plan blog w pdoc bdoc :
  can_persist w = true ->
  plan_document str_list ctx plan = Some pdoc ->
  blog_document str_list ctx blog = Some bdoc ->
  persist str_list ctx plan blog w =
    (Ok (success ctx plan blog),
     with_file blog_path bdoc (with_file plan_path pdoc (ensure_dir output_dir w))).
Proof.
  unfold can_persist, plan_document, blog_document.
  intros [[Hd Hp]%andb_prop Hb]%andb_prop Hpd Hbd.
  destruct (ctx !! "company_type") as [ct|] eqn:Hct; [|done].
  destruct (ctx !! "industry") as [ind|] eqn:Hind; [|done].
  cbn in Hpd, Hbd. injection Hpd as <-. injection Hbd as <-.
  unfold persist.
  rewrite (getitem_Some _ _ _ Hct), (getitem_Some _ _ _ Hind).
  rewrite M_bind_unfold, (makedirs_ok _ _ Hd).
  rewrite M_bind_unfold, open_w_ok; cycle 1.
  { rewrite can_open_ensure_dir; done. }
  { by apply parent_exists_output. }
  write_step; rewrite lift_Ok_bind.
  write_step; rewrite lift_Ok_bind.
  write_step.
  write_step.
  rewrite M_bind_unfold, open_w_ok; cycle 1.
  { change (can_open blog_path (ensure_dir output_dir w) = true).
    rewrite can_open_ensure_dir; done. }
  { change (Os.parent_exists (ensure_dir output_dir w) blog_path = true).
    by apply parent_exists_output. }
  write_step; rewrite lift_Ok_bind.
  write_step; rewrite lift_Ok_bind.
  write_step.
  write_step.
  rewrite !append_assoc. reflexivity.
Qed.

Lemma persist_fail ctx plan blog w pdoc :
  can_persist w = false ->
  plan_document str_list ctx plan = Some pdoc ->
  exists k p w', persist str_list ctx plan blog w = (Raise (OSError k p), w').
Proof.
  unfold can_persist, plan_document. intros Hc Hpd.
  destruct (ctx !! "company_type") as [ct|] eqn:Hct; [|done].
  destruct (ctx !! "industry") as [ind|] eqn:Hind; [|done].
  unfold persist.
  rewrite (getitem_Some _ _ _ Hct), (getitem_Some _ _ _ Hind).
  destruct (can_makedirs output_dir w) eqn:Hd; cycle 1.
  { destruct (makedirs_fail _ _ Hd) as [k Hk].
    exists k, output_dir, w. by rewrite M_bind_unfold, Hk. }
  rewrite M_bind_unfold, (makedirs_ok _ _ Hd).
  destruct (can_open plan_path w) eqn:Hp; cycle 1.
  { destruct (open_w_fail plan_path (ensure_dir output_dir w)) as [k Hk].
    { by rewrite can_open_ensure_dir. }
    exists k, plan_path, (ensure_dir output_dir w). by rewrite M_bind_unfold, Hk. }
  rewrite M_bind_unfold, open_w_ok; cycle 1.
  { rewrite can_open_ensure_dir; done. }
  { by apply parent_exists_output. }
  write_step; rewrite lift_Ok_bind.
  write_step; rewrite lift_Ok_bind.
  write_step.
  write_step.
  cbn in Hc. rewrite M_bind_unfold.
  match goal with |- context [Os.open_w blog_path ?w1] =>
    destruct (open_w_fail blog_path w1) as [k Hk] end.
  { change (can_open blog_path (ensure_dir output_dir w) = false).
    by rewrite can_open_ensure_dir. }
  eexists k, blog_path, _. by rewrite Hk.
Qed.

Lemma persist_calls ctx plan blog w r w' :
  persist str_list ctx plan blog w = (r, w') -> calls w' = calls w.
Proof.
  revert w r w'. change (keeps_calls (persist str_list ctx plan blog)).
  unfold persist. repeat (apply keeps_calls_bind; [auto with calls|intros ?]).
  auto with calls.
Qed.

Lemma calls_to_log_call a c w :
  calls_to a (log_call c w) =
  calls_to a w + (if bool_decide (agent c = a) then 1 else 0).
Proof.
  unfold calls_to, log_call. cbn [calls].
  rewrite filter_app, length_app. f_equal.
  rewrite filter_cons, filter_nil.
  case_bool_decide as Ha; by destruct (decide (agent c = a)).
Qed.

Lemma calls_to_writer_planner_call pin w :
  calls_to "supervisor_agent" (log_call (planner_call pin) w)
  = calls_to "supervisor_agent" w.
Proof.
  rewrite calls_to_log_call, bool_decide_eq_false_2; [lia|].
  cbn. discriminate.
Qed.

(** C1: in sequential mode the writer (agent supervisor_agent) is called
    only after the planner's response has been received and validated:
    when that response has no output entry, or a first entry without
    parts, the run aborts with the planner's ValueError and the writer
    receives no call; and in every run, a call to the writer is preceded
    by the planner call whose response carried text. *)
Theorem writer_waits_for_validated_plan net cc req w pin :
  create_planner_input (Chain.merge_context cc) req = Ok pin ->
  (forall r1,
     net "http://localhost:8000" "marketing_planner" pin = Ok r1 ->
     no_output r1 ->
     run_marketing_workflow net cc req w
       = (Raise (ValueError planner_msg), log_call (planner_call pin) w)
     /\ calls_to "supervisor_agent" (log_call (planner_call pin) w)
        = calls_to "supervisor_agent" w)
  /\ (forall r w',
        run_marketing_workflow net cc req w = (r, w') ->
        calls_to "supervisor_agent" w' <> calls_to "supervisor_agent" w ->
        exists r1 plan win,
          net "http://localhost:8000" "marketing_planner" pin = Ok r1
          /\ first_text r1 = Some plan
          /\ create_writer_input plan (Chain.merge_context cc) = Ok win
          /\ calls w' = (calls w ++ [planner_call pin; writer_call win])%list).
Proof.
  intros Hpin. split.
  - intros r1 Hnet Hno. split.
    + rewrite run_unfold. cbv zeta. rewrite Hpin, Hnet, result_bind_Ok.
      rewrite first_text_content.
      apply first_text_None in Hno. by rewrite Hno.
    + apply calls_to_writer_planner_call.
  - intros r w'. rewrite run_unfold. cbv zeta. rewrite Hpin.
    destruct (net _ _ pin) as [r1|e] eqn:Hnet; cycle 1.
    { intros [= _ <-] Hne. exfalso. apply Hne.
      apply calls_to_writer_planner_call. }
    rewrite result_bind_Ok, first_text_content.
    destruct (first_text r1) as [plan|] eqn:Hft; cycle 1.
    { intros [= _ <-] Hne. exfalso. apply Hne.
      apply calls_to_writer_planner_call. }
    destruct (create_writer_input plan _) as [win|e] eqn:Hwin.
    2:{ intros [= _ <-] Hne. exfalso. apply Hne.
        apply calls_to_writer_planner_call. }
    intros Hrun _. exists r1, plan, win. repeat split; [done..|].
    destruct (net _ _ win ≫= first_content writer_msg) as [blog|e].
    + apply persist_calls in Hrun. rewrite Hrun. cbn. by rewrite <- app_assoc.
    + injection Hrun as _ <-. cbn. by rewrite <- app_assoc.
Qed.

(** What a run does once both stages have produced their text. *)
Lemma run_after_generation net cc req w plan blog :
  planner_stage str_list net cc req = Ok plan ->
  writer_stage str_list net cc plan = Ok blog ->
  exists pin win,
    run_marketing_workflow net cc req w =
    persist str_list (Chain.merge_context cc) plan blog
      (log_call (writer_call win) (log_call (planner_call pin) w)).
Proof.
  unfold planner_stage, writer_stage. intros Hp Hw.
  apply result_bind_Ok_inv in Hp as (pin & Hpin & Hp).
  apply result_bind_Ok_inv in Hw as (win & Hwin & Hw).
  exists pin, win. rewrite run_unfold. cbv zeta.
  rewrite Hpin, Hp, Hwin, Hw. reflexivity.
Qed.

(** The same, when the file system lets the run persist. *)
Lemma run_after_generation_ok net cc req w plan blog :
  planner_stage str_list net cc req = Ok plan ->
  writer_stage str_list net cc plan = Ok blog ->
  can_persist w = true ->
  exists pin win pdoc bdoc,
    plan_document str_list (Chain.merge_context cc) plan = Some pdoc
    /\ blog_document str_list (Chain.merge_context cc) blog = Some bdoc
    /\ run_marketing_workflow net cc req w =
       (Ok (success (Chain.merge_context cc) plan blog),
        with_file blog_path bdoc (with_file plan_path pdoc (ensure_dir output_dir
          (log_call (writer_call win) (log_call (planner_call pin) w))))).
Proof.
  intros Hp Hw Hc.
  destruct (run_after_generation net cc req w plan blog Hp Hw) as (pin & win & ->).
  destruct (documents_merged cc plan blog) as (pdoc & bdoc & Hpd & Hbd).
  exists pin, win, pdoc, bdoc. repeat (split; [done|]).
  by apply persist_ok.
Qed.

(** C5: when the planner stage yields the text plan and the writer stage
    the text blog, and the file system lets the run create its directory
    and open its two files, the run returns a result with
    marketing_plan = plan, blog_content = blog, status = success, the
    merged context and the two paths, and leaves marketing_plan.md and
    blog_post.md holding the title, the company and industry header of the
    merged context, and the respective text. *)
Theorem sequential_run_succeeds net cc req w plan blog :
  planner_stage str_list net cc req = Ok plan ->
  writer_stage str_list net cc plan = Ok blog ->
  can_persist w = true ->
  exists r w' pdoc bdoc,
    run_marketing_workflow net cc req w = (Ok r, w')
    /\ marketing_plan r = plan
    /\ blog_content r = blog
    /\ status r = "success"
    /\ context r = Chain.merge_context cc
    /\ files r !! "marketing_plan" = Some plan_path
    /\ files r !! "blog_post" = Some blog_path
    /\ plan_document str_list (Chain.merge_context cc) plan = Some pdoc
    /\ blog_document str_list (Chain.merge_context cc) blog = Some bdoc
    /\ fs_files w' !! plan_path = Some pdoc
    /\ fs_files w' !! blog_path = Some bdoc.
Proof.
  intros Hp Hw Hc.
  destruct (run_after_generation_ok net cc req w plan blog Hp Hw Hc)
    as (pin & win & pdoc & bdoc & Hpd & Hbd & ->).
  eexists _, _, pdoc, bdoc. split; [reflexivity|].
  repeat split; try done.
  - cbn. rewrite lookup_insert_ne by done. apply lookup_insert_eq.
  - cbn. apply lookup_insert_eq.
Qed.

(** C3, as the code has it: when both stages have produced their text but
    the output directory cannot be created or an output file cannot be
    opened, the run raises the OS error; it returns no result. *)
Theorem persistence_failure_propagates net cc req w plan blog :
  planner_stage str_list net cc req = Ok plan ->
  writer_stage str_list net cc plan = Ok blog ->
  can_persist w = false ->
  exists k p w', run_marketing_workflow net cc req w = (Raise (OSError k p), w').
Proof.
  intros Hp Hw Hc.
  destruct (run_after_generation net cc req w plan blog Hp Hw) as (pin & win & ->).
  destruct (documents_merged cc plan blog) as (pdoc & bdoc & Hpd & Hbd).
  by apply (persist_fail _ _ _ _ pdoc).
Qed.

(** C9: no output file is created or written unless both stages have
    succeeded: when the planner stage fails, or the writer stage fails
    after a successful plan (empty output or an error of the remote
    call), the run raises that error and files and directories are as
    before; the plan that was generated is not on disk. *)
Theorem failed_generation_leaves_files net cc req w e :
  generation str_list net cc req = Raise e ->
  exists w',
    run_marketing_workflow net cc req w = (Raise e, w')
    /\ fs_files w' = fs_files w
    /\ fs_dirs w' = fs_dirs w.
Proof.
  unfold generation, planner_stage, writer_stage.
  rewrite run_unfold. cbv zeta.
  destruct (create_planner_input _ req) as [pin|e0]; cycle 1.
  { intros [= ->]. by eexists. }
  rewrite result_bind_Ok.
  destruct (net _ _ pin ≫= first_content planner_msg) as [plan|e0]; cycle 1.
  { intros [= ->]. by eexists. }
  rewrite result_bind_Ok.
  destruct (create_writer_input plan _) as [win|e0]; cycle 1.
  { intros [= ->]. by eexists. }
  rewrite result_bind_Ok.
  destruct (net _ _ win ≫= first_content writer_msg) as [blog|e0]; [done|].
  intros [= ->]. by eexists.
Qed.

Lemma generation_writer_failure net cc req plan e :
  planner_stage str_list net cc req = Ok plan ->
  writer_stage str_list net cc plan = Raise e ->
  generation str_list net cc req = Raise e.
Proof. unfold generation. intros Hp Hw. by rewrite Hp, result_bind_Ok, Hw. Qed.

(** C6: each stage validates the response it received: without an output
    entry, or with a first entry that has no parts, the stage fails with
    ValueError (the planner's message, respectively the writer's);
    otherwise the content of the first part of the first entry is the
    stage's text: the plan goes into the writer prompt, and plan and blog
    go to the persisting part of the run. *)
Theorem stage_response_validation net cc req w pin r1 :
  create_planner_input (Chain.merge_context cc) req = Ok pin ->
  net "http://localhost:8000" "marketing_planner" pin = Ok r1 ->
  match first_text r1 with
  | None =>
      no_output r1
      /\ run_marketing_workflow net cc req w
         = (Raise (ValueError planner_msg), log_call (planner_call pin) w)
  | Some plan =>
      ~ no_output r1
      /\ exists win,
           create_writer_input plan (Chain.merge_context cc) = Ok win
           /\ forall r2,
                net "http://localhost:8001" "supervisor_agent" win = Ok r2 ->
                let w2 := log_call (writer_call win) (log_call (planner_call pin) w) in
                match first_text r2 with
                | None =>
                    no_output r2
                    /\ run_marketing_workflow net cc req w
                       = (Raise (ValueError writer_msg), w2)
                | Some blog =>
                    ~ no_output r2
                    /\ run_marketing_workflow net cc req w
                       = persist str_list (Chain.merge_context cc) plan blog w2
                end
  end.
Proof.
  intros Hpin Hnet. rewrite run_unfold. cbv zeta.
  rewrite Hpin, Hnet, result_bind_Ok, first_text_content.
  destruct (first_text r1) as [plan|] eqn:Hft.
  - split. { rewrite <- first_text_None. congruence. }
    destruct (writer_input_merged plan cc) as [win Hwin].
    exists win. split; [done|]. intros r2 Hnet2. cbv zeta.
    rewrite Hwin, Hnet2, result_bind_Ok, first_text_content.
    destruct (first_text r2) as [blog|] eqn:Hft2.
    + split; [|done]. rewrite <- first_text_None. congruence.
    + split; [|done]. by apply first_text_None.
  - split; [|done]. by apply first_text_None.
Qed.

Lemma can_persist_after_persist w pdoc bdoc :
  can_persist w = true ->
  can_persist (with_file blog_path bdoc (with_file plan_path pdoc (ensure_dir output_dir w)))
  = true.
Proof.
  unfold can_persist. intros [[Hd Hp]%andb_prop Hb]%andb_prop.
  set (w' := with_file _ _ _).
  change (can_open plan_path w') with (can_open plan_path (ensure_dir output_dir w)).
  change (can_open blog_path w') with (can_open blog_path (ensure_dir output_dir w)).
  rewrite !can_open_ensure_dir, Hp, Hb by done.
  rewrite !andb_true_r. unfold can_makedirs.
  rewrite bool_decide_eq_true_2; [done|].
  change (fs_dirs w') with (fs_dirs (ensure_dir output_dir w)).
  rewrite ensure_dir_dirs. apply elem_of_union_l. by apply elem_of_singleton.
Qed.

(** A successful run leaves a world in which the next run can persist,
    with both files and the directory in place. *)
Lemma run_ok_world net cc req w r w' :
  run_marketing_workflow net cc req w = (Ok r, w') ->
  can_persist w' = true
  /\ output_dir ∈ fs_dirs w'
  /\ plan_path ∈ dom (fs_files w')
  /\ blog_path ∈ dom (fs_files w').
Proof.
  rewrite run_unfold. cbv zeta.
  destruct (create_planner_input _ req) as [pin|e0]; [|done].
  destruct (net _ _ pin ≫= first_content planner_msg) as [plan|e0]; [|done].
  destruct (create_writer_input plan _) as [win|e0]; [|done].
  destruct (net _ _ win ≫= first_content writer_msg) as [blog|e0]; [|done].
  destruct (documents_merged cc plan blog) as (pdoc & bdoc & Hpd & Hbd).
  set (w2 := log_call _ _).
  destruct (can_persist w2) eqn:Hc.
  - rewrite (persist_ok _ _ _ _ pdoc bdoc); [|done..]. intros [= _ <-].
    split; [by apply can_persist_after_persist|].
    cbn [fs_dirs fs_files with_file]. rewrite ensure_dir_dirs.
    split; [apply elem_of_union_l; by apply elem_of_singleton|].
    rewrite !dom_insert_L. split.
    + apply elem_of_union_r, elem_of_union_l. by apply elem_of_singleton.
    + apply elem_of_union_l. by apply elem_of_singleton.
  - destruct (persist_fail _ _ blog _ pdoc Hc Hpd) as (k & p & w3 & ->). done.
Qed.

(** C8: persisting overwrites.  After a run that succeeded, a second run
    whose stages yield other texts succeeds as well and leaves, at the
    same two paths, exactly the documents of the second run; it creates
    no further file and no further directory. *)
Theorem second_run_overwrites net1 cc1 req1 net2 cc2 req2 w r1 w1 plan2 blog2 :
  run_marketing_workflow net1 cc1 req1 w = (Ok r1, w1) ->
  generation str_list net2 cc2 req2 = Ok (plan2, blog2) ->
  exists r2 w2,
    run_marketing_workflow net2 cc2 req2 w1 = (Ok r2, w2)
    /\ marketing_plan r2 = plan2
    /\ blog_content r2 = blog2
    /\ fs_files w2 !! plan_path = plan_document str_list (Chain.merge_context cc2) plan2
    /\ fs_files w2 !! blog_path = blog_document str_list (Chain.merge_context cc2) blog2
    /\ dom (fs_files w2) = dom (fs_files w1)
    /\ fs_dirs w2 = fs_dirs w1.
Proof.
  intros Hrun1 Hgen.
  destruct (run_ok_world _ _ _ _ _ _ Hrun1) as (Hc & Hd & Hpl & Hbl).
  unfold generation in Hgen.
  apply result_bind_Ok_inv in Hgen as (plan & Hp & Hgen).
  apply result_bind_Ok_inv in Hgen as (blog & Hw & [= <- <-]).
  destruct (run_after_generation net2 cc2 req2 w1 plan blog Hp Hw) as (pin & win & ->).
  destruct (documents_merged cc2 plan blog) as (pdoc & bdoc & Hpd & Hbd).
  rewrite (persist_ok _ _ _ _ pdoc bdoc); [|done..].
  eexists _, _. split; [reflexivity|].
  rewrite Hpd, Hbd. cbn [fs_files fs_dirs with_file marketing_plan blog_content success].
  rewrite ensure_dir_files, ensure_dir_present by done.
  cbn [fs_files fs_dirs log_call].
  repeat split.
  - rewrite lookup_insert_ne by done. apply lookup_insert_eq.
  - apply lookup_insert_eq.
  - rewrite !dom_insert_L. apply set_eq. intros x.
    rewrite !elem_of_union, !elem_of_singleton.
    split; [|by auto]. by intros [->|[->|?]].
Qed.

(** C2, as the code has it: each prompt builder fails with KeyError
    naming the first absent field among those its template reads, in
    reading order, and builds the prompt when all of them are present.
    create_planner_input reads company_type, industry, target_audience,
    value_proposition and key_benefits; create_writer_input reads the
    first three only. *)
Theorem prompt_builders_name_missing_field ctx req plan :
  match first_missing planner_fields ctx with
  | Some k => ctx !! k = None /\ create_planner_input ctx req = Raise (KeyError k)
  | None => exists s, create_planner_input ctx req = Ok s
  end
  /\ match first_missing writer_fields ctx with
     | Some k => ctx !! k = None /\ create_writer_input plan ctx = Raise (KeyError k)
     | None => exists s, create_writer_input plan ctx = Ok s
     end.
Proof.
  split.
  - pose proof (planner_input_reads ctx req) as H.
    destruct (first_missing planner_fields ctx) as [k|] eqn:Hk; [|done].
    split; [|done]. by apply first_missing_absent in Hk as [_ ?].
  - pose proof (writer_input_reads plan ctx) as H.
    destruct (first_missing writer_fields ctx) as [k|] eqn:Hk; [|done].
    split; [|done]. by apply first_missing_absent in Hk as [_ ?].
Qed.

End Sequential.

(** C7: the merged context is the defaults overridden key by key by the
    caller's entries, in both orchestrators; with only industry given as
    FinTech, industry is FinTech and every other key has its default. *)
Theorem merge_context_caller_wins (company_context : gmap string value) (k : string) :
  Chain.merge_context (Some company_context) !! k
    = match company_context !! k with
      | Some v => Some v
      | None => Chain.DEFAULT_CONTEXT !! k
      end
  /\ Chain.merge_context None !! k = Chain.DEFAULT_CONTEXT !! k
  /\ AcpCrew.merge_context (Some company_context) = Chain.merge_context (Some company_context)
  /\ Chain.merge_context (Some {[ "industry" := VStr "FinTech" ]}) !! k
     = if decide (k = "industry") then Some (VStr "FinTech")
       else Chain.DEFAULT_CONTEXT !! k.
Proof.
  split; [apply merge_context_lookup|].
  split; [apply merge_context_lookup|].
  split; [reflexivity|].
  rewrite merge_context_lookup. cbn [from_option id].
  case_decide as Hk.
  - subst k. by rewrite lookup_singleton_eq.
  - by rewrite lookup_singleton_ne.
Qed.

(** Whenever the discovery-mode entry point returns, it returns None. *)
Lemma discovery_run_result str_list from_acp acpagent_run cc req w r w' :
  AcpCrew.run_marketing_workflow str_list from_acp acpagent_run cc req w = (Ok r, w') ->
  r = None.
Proof.
  unfold AcpCrew.run_marketing_workflow. cbv zeta. intros H.
  repeat (apply M_bind_Ok_inv in H as (? & ? & _ & H)).
  by injection H as <- _.
Qed.

(** C4, on the code: with one agent discovered per endpoint and a calling
    agent answering FINAL, the discovery-mode entry point writes
    blog_post.md (header and FINAL), writes no marketing_plan.md, and
    evaluates to None: no result with marketing_plan and blog_content is
    handed to the caller. *)
Theorem discovery_run_returns_none :
  let out := AcpCrew.run_marketing_workflow sample_str_list stub_from_acp
               (stub_acpagent "FINAL") None None fresh_world in
  out.1 = Ok None
  /\ fs_files out.2 !! blog_path
     = Some ("**Company:** AI startup" +:+ nl +:+
             "**Industry:** Marketing Technology" +:+ nl +:+ nl +:+ "FINAL")
  /\ fs_files out.2 !! plan_path = None.
Proof. vm_compute. repeat split. Qed.

(** ** The statements at concrete inputs *)

Lemma writer_waits_for_validated_plan_witness :
  exists pin,
    Chain.create_planner_input sample_str_list (Chain.merge_context None) None = Ok pin
    /\ no_output partless_run
    /\ Chain.run_marketing_workflow sample_str_list
         (stub_net partless_run (reply "BLOG_Y")) None None fresh_world
       = (Raise (ValueError planner_msg), log_call (planner_call pin) fresh_world)
    /\ calls_to "supervisor_agent" (log_call (planner_call pin) fresh_world) = 0.
Proof.
  eexists. split; [vm_compute; reflexivity|].
  assert (no_output partless_run) as Hno.
  { right. exists {| parts := [] |}. split; reflexivity. }
  split; [exact Hno|].
  refine (proj1 (writer_waits_for_validated_plan sample_str_list
            (stub_net partless_run (reply "BLOG_Y")) None None fresh_world _ _)
            partless_run _ Hno).
  - vm_compute. reflexivity.
  - reflexivity.
Defined.

Lemma sequential_run_succeeds_witness :
  planner_stage sample_str_list sample_net None None = Ok "PLAN_X"
  /\ writer_stage sample_str_list sample_net None "PLAN_X" = Ok "BLOG_Y"
  /\ can_persist fresh_world = true
  /\ exists r w',
       Chain.run_marketing_workflow sample_str_list sample_net None None fresh_world
         = (Ok r, w')
       /\ marketing_plan r = "PLAN_X"
       /\ blog_content r = "BLOG_Y"
       /\ status r = "success"
       /\ fs_files w' !! plan_path
          = Some ("# Marketing Plan" +:+ nl +:+ nl +:+
                  "**Company:** AI startup" +:+ nl +:+
                  "**Industry:** Marketing Technology" +:+ nl +:+ nl +:+ "PLAN_X")
       /\ fs_files w' !! blog_path
          = Some ("# Blog Post" +:+ nl +:+ nl +:+
                  "**Company:** AI startup" +:+ nl +:+
                  "**Industry:** Marketing Technology" +:+ nl +:+ nl +:+ "BLOG_Y").
Proof.
  assert (planner_stage sample_str_list sample_net None None = Ok "PLAN_X") as Hp
    by (vm_compute; reflexivity).
  assert (writer_stage sample_str_list sample_net None "PLAN_X" = Ok "BLOG_Y") as Hw
    by (vm_compute; reflexivity).
  assert (can_persist fresh_world = true) as Hc by (vm_compute; reflexivity).
  repeat (split; [assumption|]).
  destruct (sequential_run_succeeds sample_str_list sample_net None None fresh_world
              "PLAN_X" "BLOG_Y" Hp Hw Hc)
    as (r & w' & pdoc & bdoc & Hrun & H1 & H2 & H3 & _ & _ & _ & Hpd & Hbd & Hf1 & Hf2).
  exists r, w'. repeat (split; [assumption|]).
  vm_compute in Hpd, Hbd. injection Hpd as <-. injection Hbd as <-.
  split; assumption.
Defined.

(** C3 fails on the code: both stages succeed, the blog file may not be
    written, and the run raises PermissionError instead of returning the
    plan and the blog. *)
Lemma persistence_failure_discards_text :
  planner_stage sample_str_list sample_net None None = Ok "PLAN_X"
  /\ writer_stage sample_str_list sample_net None "PLAN_X" = Ok "BLOG_Y"
  /\ (Chain.run_marketing_workflow sample_str_list sample_net None None
        blog_denied_world).1
     = Raise (OSError PermissionError blog_path).
Proof. vm_compute. repeat split. Qed.

Lemma persistence_failure_propagates_witness :
  planner_stage sample_str_list sample_net None None = Ok "PLAN_X"
  /\ writer_stage sample_str_list sample_net None "PLAN_X" = Ok "BLOG_Y"
  /\ can_persist blog_denied_world = false
  /\ exists k p w',
       Chain.run_marketing_workflow sample_str_list sample_net None None
         blog_denied_world = (Raise (OSError k p), w').
Proof.
  assert (planner_stage sample_str_list sample_net None None = Ok "PLAN_X") as Hp
    by (vm_compute; reflexivity).
  assert (writer_stage sample_str_list sample_net None "PLAN_X" = Ok "BLOG_Y") as Hw
    by (vm_compute; reflexivity).
  assert (can_persist blog_denied_world = false) as Hc by (vm_compute; reflexivity).
  repeat (split; [assumption|]).
  exact (persistence_failure_propagates sample_str_list sample_net None None
           blog_denied_world "PLAN_X" "BLOG_Y" Hp Hw Hc).
Defined.

Lemma failed_generation_leaves_files_witness :
  planner_stage sample_str_list (stub_net (reply "PLAN_X") partless_run) None None
    = Ok "PLAN_X"
  /\ writer_stage sample_str_list (stub_net (reply "PLAN_X") partless_run) None "PLAN_X"
     = Raise (ValueError writer_msg)
  /\ exists w',
       Chain.run_marketing_workflow sample_str_list
         (stub_net (reply "PLAN_X") partless_run) None None fresh_world
       = (Raise (ValueError writer_msg), w')
       /\ fs_files w' = fs_files fresh_world
       /\ fs_dirs w' = fs_dirs fresh_world.
Proof.
  assert (planner_stage sample_str_list (stub_net (reply "PLAN_X") partless_run)
            None None = Ok "PLAN_X") as Hp by (vm_compute; reflexivity).
  assert (writer_stage sample_str_list (stub_net (reply "PLAN_X") partless_run)
            None "PLAN_X" = Raise (ValueError writer_msg)) as Hw
    by (vm_compute; reflexivity).
  repeat (split; [assumption|]).
  exact (failed_generation_leaves_files sample_str_list _ None None fresh_world _
           (generation_writer_failure sample_str_list _ None None _ _ Hp Hw)).
Defined.

Lemma stage_response_validation_witness :
  exists pin,
    Chain.create_planner_input sample_str_list (Chain.merge_context None) None = Ok pin
    /\ sample_net "http://localhost:8000" "marketing_planner" pin = Ok (reply "PLAN_X")
    /\ exists win,
         Chain.create_writer_input sample_str_list "PLAN_X" (Chain.merge_context None)
           = Ok win
         /\ Chain.run_marketing_workflow sample_str_list sample_net None None fresh_world
            = persist sample_str_list (Chain.merge_context None) "PLAN_X" "BLOG_Y"
                (log_call (writer_call win) (log_call (planner_call pin) fresh_world)).
Proof.
  eexists. split; [vm_compute; reflexivity|]. split; [reflexivity|].
  match goal with |- context [planner_call ?pin] =>
    pose proof (stage_response_validation sample_str_list sample_net None None
                  fresh_world pin (reply "PLAN_X")) as H
  end.
  destruct H as [_ (win & Hwin & H)]; [vm_compute; reflexivity | reflexivity |].
  exists win. split; [exact Hwin|].
  exact (proj2 (H (reply "BLOG_Y") eq_refl)).
Defined.

Lemma second_run_overwrites_witness :
  exists r1 w1,
    Chain.run_marketing_workflow sample_str_list sample_net None None fresh_world
      = (Ok r1, w1)
    /\ generation sample_str_list (stub_net (reply "PLAN_2") (reply "BLOG_2")) None None
       = Ok ("PLAN_2", "BLOG_2")
    /\ exists r2 w2,
         Chain.run_marketing_workflow sample_str_list
           (stub_net (reply "PLAN_2") (reply "BLOG_2")) None None w1 = (Ok r2, w2)
         /\ fs_files w2 !! plan_path
            = Some ("# Marketing Plan" +:+ nl +:+ nl +:+
                    "**Company:** AI startup" +:+ nl +:+
                    "**Industry:** Marketing Technology" +:+ nl +:+ nl +:+ "PLAN_2")
         /\ fs_files w2 !! blog_path
            = Some ("# Blog Post" +:+ nl +:+ nl +:+
                    "**Company:** AI startup" +:+ nl +:+
                    "**Industry:** Marketing Technology" +:+ nl +:+ nl +:+ "BLOG_2")
         /\ dom (fs_files w2) = dom (fs_files w1).
Proof.
  destruct (run_after_generation_ok sample_str_list sample_net None None fresh_world
              "PLAN_X" "BLOG_Y") as (pin & win & pdoc & bdoc & _ & _ & Hrun);
    [vm_compute; reflexivity..|].
  eexists _, _. split; [exact Hrun|].
  assert (generation sample_str_list (stub_net (reply "PLAN_2") (reply "BLOG_2"))
            None None = Ok ("PLAN_2", "BLOG_2")) as Hgen by (vm_compute; reflexivity).
  split; [exact Hgen|].
  destruct (second_run_overwrites sample_str_list _ _ _ _ _ _ _ _ _ _ _ Hrun Hgen)
    as (r2 & w2 & Hrun2 & _ & _ & Hf1 & Hf2 & Hdom & _).
  exists r2, w2. split; [exact Hrun2|].
  vm_compute in Hf1, Hf2. repeat (split; [assumption|]). exact Hdom.
Defined.

(** C2 fails on the code: without value_proposition in the context,
    create_writer_input raises nothing and builds its prompt. *)
Lemma writer_input_ignores_value_proposition :
  context_without_value_proposition !! "value_proposition" = None
  /\ is_ok (Chain.create_writer_input sample_str_list "PLAN_X"
              context_without_value_proposition) = true
  /\ Chain.create_writer_input sample_str_list "PLAN_X"
       context_without_value_proposition <> Raise (KeyError "value_proposition").
Proof. vm_compute. repeat split. discriminate. Qed.

Example prompt_builders_on_missing_industry :
  let ctx := delete "industry" Chain.DEFAULT_CONTEXT in
  Chain.create_planner_input sample_str_list ctx None = Raise (KeyError "industry")
  /\ Chain.create_writer_input sample_str_list "PLAN_X" ctx = Raise (KeyError "industry").
Proof. vm_compute. split; reflexivity. Qed.


(** ** Further properties of chain.py *)

Lemma outputs_only_same_fs w w' :
  fs_files w' = fs_files w -> fs_dirs w' = fs_dirs w -> fs_denied w' = fs_denied w ->
  outputs_only w w'.
Proof.
  intros Hf Hd Hp. unfold outputs_only. rewrite Hf, Hd, Hp.
  repeat split; try done.
  intros d Hin. apply elem_of_union_r, Hin.
Qed.

Lemma outputs_only_refl w : outputs_only w w.
Proof. by apply outputs_only_same_fs. Qed.

Lemma outputs_only_trans w1 w2 w3 :
  outputs_only w1 w2 -> outputs_only w2 w3 -> outputs_only w1 w3.
Proof.
  intros (Hf1 & Hd1 & Hs1 & Hb1) (Hf2 & Hd2 & Hs2 & Hb2). repeat split.
  - intros q Hp Hb. by rewrite Hf2, Hf1.
  - by rewrite Hd2.
  - intros d Hd. by apply Hs2, Hs1.
  - intros d Hd. apply Hb2 in Hd. apply elem_of_union in Hd as [Hd|Hd].
    + by apply elem_of_union_l.
    + by apply Hb1.
Qed.

Lemma respects_outputs_ret {A} (a : A) : respects_outputs (mret a).
Proof. intros w r w' [= _ <-]. apply outputs_only_refl. Qed.

Lemma respects_outputs_lift {A} (x : result A) : respects_outputs (lift x).
Proof. intros w r w' [= _ <-]. apply outputs_only_refl. Qed.

Lemma respects_outputs_bind {A B} (m : M A) (f : A -> M B) :
  respects_outputs m -> (forall a, respects_outputs (f a)) -> respects_outputs (m ≫= f).
Proof.
  intros Hm Hf w r w'. rewrite M_bind_unfold.
  destruct (m w) as [[a|e] w1] eqn:Hmw.
  - intros Hfa. eapply outputs_only_trans; [by eapply Hm | by eapply Hf].
  - intros [= _ <-]. by eapply Hm.
Qed.

Lemma respects_outputs_run_sync net url agent input :
  respects_outputs (run_sync net url agent input).
Proof. intros w r w' [= _ <-]. by apply outputs_only_same_fs. Qed.

Lemma respects_outputs_makedirs : respects_outputs (Os.makedirs output_dir).
Proof.
  intros w r w'. unfold Os.makedirs.
  repeat case_bool_decide; intros [= _ <-]; try apply outputs_only_refl.
  repeat split; try done. intros d Hd. by apply elem_of_union_r.
Qed.

Lemma outputs_only_with_file p t w :
  p = plan_path \/ p = blog_path -> outputs_only w (with_file p t w).
Proof.
  intros Hp. repeat split; try done.
  - intros q Hq1 Hq2. cbn. apply lookup_insert_ne. by intros ->; destruct Hp.
  - intros d Hd. by apply elem_of_union_r.
Qed.

Lemma respects_outputs_open_w p :
  p = plan_path \/ p = blog_path -> respects_outputs (Os.open_w p).
Proof.
  intros Hp w r w'. unfold Os.open_w.
  case_bool_decide; [intros [= _ <-]; apply outputs_only_refl|].
  destruct (negb (Os.parent_exists w p)); [intros [= _ <-]; apply outputs_only_refl|].
  case_bool_decide; intros [= _ <-]; [apply outputs_only_refl|].
  by apply (outputs_only_with_file p "").
Qed.

Lemma respects_outputs_write p t :
  p = plan_path \/ p = blog_path -> respects_outputs (Os.write p t).
Proof.
  intros Hp w r w' [= _ <-]. by apply (outputs_only_with_file p).
Qed.

Create HintDb outputs.
#[global] Hint Resolve respects_outputs_ret respects_outputs_lift
  respects_outputs_run_sync respects_outputs_makedirs : outputs.
#[global] Hint Extern 1 (respects_outputs (Os.open_w _)) =>
  (apply respects_outputs_open_w; auto) : outputs.
#[global] Hint Extern 1 (respects_outputs (Os.write _ _)) =>
  (apply respects_outputs_write; auto) : outputs.

Section SequentialFurther.
Variable str_list : list string -> string.
Local Abbreviation create_planner_input := (Chain.create_planner_input str_list).
Local Abbreviation create_writer_input := (Chain.create_writer_input str_list).
Local Abbreviation run_marketing_workflow := (Chain.run_marketing_workflow str_list).

(** X1: a sequential run, however it ends, leaves every file other than
    marketing_plan.md and blog_post.md as it was, changes no permission,
    removes no directory and creates none but marketing_outputs. *)
Theorem run_touches_outputs_only net cc req w r w' :
  run_marketing_workflow net cc req w = (r, w') ->
  (forall q, q <> plan_path -> q <> blog_path -> fs_files w' !! q = fs_files w !! q)
  /\ fs_denied w' = fs_denied w
  /\ fs_dirs w ⊆ fs_dirs w'
  /\ fs_dirs w' ⊆ {[ output_dir ]} ∪ fs_dirs w.
Proof.
  revert w r w'. change (respects_outputs (run_marketing_workflow net cc req)).
  unfold Chain.run_marketing_workflow. cbv zeta.
  change ("marketing_outputs" +:+ "/marketing_plan.md") with plan_path.
  change ("marketing_outputs" +:+ "/blog_post.md") with blog_path.
  change "marketing_outputs" with output_dir.
  repeat (apply respects_outputs_bind; [auto with outputs|intros ?]).
  auto with outputs.
Qed.

(** The errors a sequential run can end with in the embedding, where
    context values are str or lists of str and parts carry text. *)
Lemma run_error_cases net cc req w e w' :
  run_marketing_workflow net cc req w = (Raise e, w') ->
  e = ValueError planner_msg
  \/ e = ValueError writer_msg
  \/ (exists k p, e = OSError k p)
  \/ (exists pin, net "http://localhost:8000" "marketing_planner" pin = Raise e)
  \/ (exists win, net "http://localhost:8001" "supervisor_agent" win = Raise e).
Proof.
  rewrite run_unfold. cbv zeta.
  destruct (planner_input_merged str_list cc req) as [pin ->].
  destruct (net _ _ pin) as [r1|e1] eqn:Hnet1; cycle 1.
  { intros [= <- _]. do 3 right. left. by exists pin. }
  rewrite result_bind_Ok, first_text_content.
  destruct (first_text r1) as [plan|]; cycle 1.
  { intros [= <- _]. by left. }
  destruct (writer_input_merged str_list plan cc) as [win ->].
  destruct (net _ _ win) as [r2|e2] eqn:Hnet2; cycle 1.
  { intros [= <- _]. do 4 right. by exists win. }
  rewrite result_bind_Ok, first_text_content.
  destruct (first_text r2) as [blog|]; cycle 1.
  { intros [= <- _]. right. by left. }
  destruct (documents_merged str_list cc plan blog) as (pdoc & bdoc & Hpd & Hbd).
  set (w2 := log_call _ _).
  destruct (can_persist w2) eqn:Hc.
  - by rewrite (persist_ok _ _ _ _ _ pdoc bdoc).
  - destruct (persist_fail str_list _ _ blog _ pdoc Hc Hpd) as (k & p & w3 & ->).
    intros [= <- _]. do 2 right. left. by exists k, p.
Qed.

(** X2: no KeyError originates in a sequential run.  The defaults supply
    every field the run subscripts, so whatever context the caller
    passes, a KeyError leaving the run is one that a remote call
    raised. *)
Theorem run_raises_no_key_error net cc req w k w' :
  run_marketing_workflow net cc req w = (Raise (KeyError k), w') ->
  (exists pin,
     net "http://localhost:8000" "marketing_planner" pin = Raise (KeyError k))
  \/ (exists win,
        net "http://localhost:8001" "supervisor_agent" win = Raise (KeyError k)).
Proof.
  intros Hrun.
  destruct (run_error_cases net cc req w _ _ Hrun)
    as [H|[H|[(kind & p & H)|[H|H]]]]; try discriminate H.
  - by left.
  - by right.
Qed.

(** X3: the requests of a sequential run.  A run whose planner prompt
    has been built sends the planner request first, with that prompt, and
    at most one more request, to supervisor_agent: nothing is retried,
    and no other agent (blog_writer in particular) is addressed. *)
Theorem run_request_discipline net cc req w pin r w' :
  create_planner_input (Chain.merge_context cc) req = Ok pin ->
  run_marketing_workflow net cc req w = (r, w') ->
  (calls w' = (calls w ++ [planner_call pin])%list
   \/ exists win, calls w' = (calls w ++ [planner_call pin; writer_call win])%list)
  /\ calls_to "marketing_planner" w' = S (calls_to "marketing_planner" w)
  /\ calls_to "blog_writer" w' = calls_to "blog_writer" w.
Proof.
  intros Hpin Hrun.
  assert (calls w' = (calls w ++ [planner_call pin])%list
          \/ exists win, calls w' = (calls w ++ [planner_call pin; writer_call win])%list)
    as Hcalls.
  { revert Hrun. rewrite run_unfold. cbv zeta. rewrite Hpin.
    destruct (net _ _ pin ≫= first_content planner_msg) as [plan|e1]; cycle 1.
    { intros [= _ <-]. by left. }
    destruct (create_writer_input plan _) as [win|e2]; cycle 1.
    { intros [= _ <-]. by left. }
    intros Hrun. right. exists win.
    destruct (net _ _ win ≫= first_content writer_msg) as [blog|e3].
    - apply persist_calls in Hrun. rewrite Hrun. cbn. by rewrite <- app_assoc.
    - injection Hrun as _ <-. cbn. by rewrite <- app_assoc. }
  split; [done|].
  unfold calls_to.
  destruct Hcalls as [->|[win ->]]; rewrite !filter_app, !length_app;
    rewrite ?filter_cons, ?filter_nil; repeat case_decide;
    cbn [agent planner_call writer_call length] in *; try done; split; lia.
Qed.

Lemma persist_blog_blocked ctx plan blog w pdoc :
  can_makedirs output_dir w = true ->
  can_open plan_path w = true ->
  can_open blog_path w = false ->
  plan_document str_list ctx plan = Some pdoc ->
  exists k,
    persist str_list ctx plan blog w
    = (Raise (OSError k blog_path), with_file plan_path pdoc (ensure_dir output_dir w)).
Proof.
  unfold plan_document. intros Hd Hp Hb Hpd.
  destruct (ctx !! "company_type") as [ct|] eqn:Hct; [|done].
  destruct (ctx !! "industry") as [ind|] eqn:Hind; [|done].
  cbn in Hpd. injection Hpd as <-.
  unfold persist.
  rewrite (getitem_Some _ _ _ Hct), (getitem_Some _ _ _ Hind).
  rewrite M_bind_unfold, (makedirs_ok _ _ Hd).
  rewrite M_bind_unfold, open_w_ok; cycle 1.
  { rewrite can_open_ensure_dir; done. }
  { by apply parent_exists_output. }
  write_step; rewrite lift_Ok_bind.
  write_step; rewrite lift_Ok_bind.
  write_step. write_step.
  rewrite M_bind_unfold.
  match goal with |- context [Os.open_w blog_path ?w1] =>
    destruct (open_w_fail blog_path w1) as [k Hk] end.
  { change (can_open blog_path (ensure_dir output_dir w) = false).
    by rewrite can_open_ensure_dir. }
  exists k. rewrite Hk, !append_assoc. reflexivity.
Qed.

(** X4: a failure at the second file leaves the first one written.  When
    both stages have produced their text, the directory and the plan file
    are available, but blog_post.md cannot be opened, the run raises the
    OS error for blog_post.md; marketing_plan.md then holds the complete
    plan document, and blog_post.md is as it was. *)
Theorem blog_failure_keeps_plan_file net cc req w plan blog :
  planner_stage str_list net cc req = Ok plan ->
  writer_stage str_list net cc plan = Ok blog ->
  can_makedirs output_dir w = true ->
  can_open plan_path w = true ->
  can_open blog_path w = false ->
  exists k w',
    run_marketing_workflow net cc req w = (Raise (OSError k blog_path), w')
    /\ fs_files w' !! plan_path = plan_document str_list (Chain.merge_context cc) plan
    /\ fs_files w' !! blog_path = fs_files w !! blog_path
    /\ output_dir ∈ fs_dirs w'.
Proof.
  intros Hp Hw Hd Hpp Hb.
  destruct (run_after_generation str_list net cc req w plan blog Hp Hw) as (pin & win & ->).
  destruct (documents_merged str_list cc plan blog) as (pdoc & bdoc & Hpd & _).
  destruct (persist_blog_blocked (Chain.merge_context cc) plan blog
              (log_call (writer_call win) (log_call (planner_call pin) w)) pdoc)
    as [k ->]; [done..|].
  eexists k, _. split; [reflexivity|]. rewrite Hpd.
  cbn [fs_files fs_dirs with_file]. rewrite ensure_dir_files, ensure_dir_dirs.
  split; [apply lookup_insert_eq|].
  split; [by rewrite lookup_insert_ne|].
  apply elem_of_union_l. by apply elem_of_singleton.
Qed.

(** X5: when the output directory cannot be created (a regular file of
    that name exists, or creating it is not permitted), the run raises the
    OS error for the directory after both stages have run, and files and
    directories are as before. *)
Theorem directory_failure_writes_nothing net cc req w plan blog :
  planner_stage str_list net cc req = Ok plan ->
  writer_stage str_list net cc plan = Ok blog ->
  can_makedirs output_dir w = false ->
  exists k w',
    run_marketing_workflow net cc req w = (Raise (OSError k output_dir), w')
    /\ fs_files w' = fs_files w
    /\ fs_dirs w' = fs_dirs w.
Proof.
  intros Hp Hw Hd.
  destruct (run_after_generation str_list net cc req w plan blog Hp Hw) as (pin & win & ->).
  set (w2 := log_call _ _).
  destruct (makedirs_fail output_dir w2 Hd) as [k Hk].
  exists k, w2. unfold persist. by rewrite M_bind_unfold, Hk.
Qed.

(** X6: an error raised by a remote call leaves the run unchanged.  When
    the planner call raises, the run raises that error after this one
    request; when the writer call raises, after the two requests. *)
Theorem remote_error_propagates net cc req w pin e :
  create_planner_input (Chain.merge_context cc) req = Ok pin ->
  (net "http://localhost:8000" "marketing_planner" pin = Raise e ->
   run_marketing_workflow net cc req w = (Raise e, log_call (planner_call pin) w))
  /\ (forall r1 plan win,
        net "http://localhost:8000" "marketing_planner" pin = Ok r1 ->
        first_text r1 = Some plan ->
        create_writer_input plan (Chain.merge_context cc) = Ok win ->
        net "http://localhost:8001" "supervisor_agent" win = Raise e ->
        run_marketing_workflow net cc req w
        = (Raise e, log_call (writer_call win) (log_call (planner_call pin) w))).
Proof.
  intros Hpin. split.
  - intros Hnet. rewrite run_unfold. cbv zeta. by rewrite Hpin, Hnet.
  - intros r1 plan win Hnet1 Hft Hwin Hnet2. rewrite run_unfold. cbv zeta.
    rewrite Hpin, Hnet1, result_bind_Ok, first_text_content, Hft, Hwin, Hnet2.
    reflexivity.
Qed.

End SequentialFurther.


(** ** Further properties of acp_crew.py *)

Lemma acp_agents_of_snoc agents ca :
  acp_agents_of (agents ++ [ca]) = <[ ca.2 := ca.1 ]> (acp_agents_of agents).
Proof. unfold acp_agents_of. by rewrite foldl_app. Qed.

Lemma last_client_snoc n agents ca :
  last_client n (agents ++ [ca])
  = if bool_decide (ca.2 = n) then Some ca.1 else last_client n agents.
Proof.
  induction agents as [|x agents IH]; cbn [app last_client].
  - by case_bool_decide.
  - rewrite IH. case_bool_decide; [done|]. by destruct (last_client n agents).
Qed.

Lemma acp_agents_of_lookup agents n :
  acp_agents_of agents !! n = last_client n agents.
Proof.
  induction agents as [|ca agents IH] using rev_ind; [done|].
  rewrite acp_agents_of_snoc, last_client_snoc.
  case_bool_decide as Hn.
  - subst n. apply lookup_insert_eq.
  - by rewrite lookup_insert_ne.
Qed.

Section DiscoveryFurther.
Variable str_list : list string -> string.
Variable from_acp : string -> string -> M (list (string * string)).
Variable acpagent_run : gmap string string -> string -> M string.
Local Abbreviation format_input := (AcpCrew.format_input_for_acp_orchestrator str_list).
Local Abbreviation crew_run := (AcpCrew.run_marketing_workflow str_list from_acp acpagent_run).

Lemma format_input_reads ctx req :
  match first_missing planner_fields ctx with
  | Some k => format_input ctx req = Raise (KeyError k)
  | None => exists s, format_input ctx req = Ok s
  end.
Proof.
  unfold first_missing, planner_fields, has_key,
    AcpCrew.format_input_for_acp_orchestrator, getitem.
  cbn [List.find].
  destruct (ctx !! "company_type"); cbn [negb]; [|done].
  destruct (ctx !! "industry"); cbn [negb]; [|done].
  destruct (ctx !! "target_audience"); cbn [negb]; [|done].
  destruct (ctx !! "value_proposition"); cbn [negb]; [|done].
  destruct (ctx !! "key_benefits"); cbn [negb]; [|done].
  eexists. reflexivity.
Qed.

(** The discovery-mode run, step by step. *)
Lemma crew_run_unfold cc req w :
  crew_run cc req w =
  match from_acp "http://localhost:8000" "http://localhost:8001" w with
  | (Raise e, w1) => (Raise e, w1)
  | (Ok agents, w1) =>
      match format_input (AcpCrew.merge_context cc) req with
      | Raise e => (Raise e, w1)
      | Ok q =>
          match acpagent_run (acp_agents_of agents) q w1 with
          | (Raise e, w2) => (Raise e, w2)
          | (Ok result, w2) => crew_persist str_list (AcpCrew.merge_context cc) result w2
          end
      end
  end.
Proof.
  unfold AcpCrew.run_marketing_workflow. cbv zeta.
  rewrite M_bind_unfold.
  destruct (from_acp _ _ w) as [[agents|e] w1]; [|done].
  rewrite lift_bind.
  destruct (format_input _ req) as [q|e]; [|done].
  rewrite M_bind_unfold. fold (acp_agents_of agents).
  destruct (acpagent_run _ q w1) as [[result|e] w2]; [|done].
  reflexivity.
Qed.

Lemma crew_persist_ok ctx result w doc :
  can_makedirs output_dir w = true ->
  can_open blog_path w = true ->
  crew_document str_list ctx result = Some doc ->
  crew_persist str_list ctx result w
  = (Ok None, with_file blog_path doc (ensure_dir output_dir w)).
Proof.
  unfold crew_document. intros Hd Hb Hdoc.
  destruct (ctx !! "company_type") as [ct|] eqn:Hct; [|done].
  destruct (ctx !! "industry") as [ind|] eqn:Hind; [|done].
  cbn in Hdoc. injection Hdoc as <-.
  unfold crew_persist.
  rewrite (getitem_Some _ _ _ Hct), (getitem_Some _ _ _ Hind).
  rewrite M_bind_unfold, (makedirs_ok _ _ Hd).
  rewrite M_bind_unfold, open_w_ok; cycle 1.
  { rewrite can_open_ensure_dir; done. }
  { by apply parent_exists_output. }
  rewrite lift_Ok_bind. write_step. rewrite lift_Ok_bind. write_step. write_step.
  rewrite !append_assoc. reflexivity.
Qed.

Lemma crew_persist_fail ctx result w :
  can_makedirs output_dir w && can_open blog_path w = false ->
  exists k p w',
    crew_persist str_list ctx result w = (Raise (OSError k p), w')
    /\ fs_files w' = fs_files w.
Proof.
  intros Hc. unfold crew_persist.
  destruct (can_makedirs output_dir w) eqn:Hd; cycle 1.
  { destruct (makedirs_fail _ _ Hd) as [k Hk].
    exists k, output_dir, w. by rewrite M_bind_unfold, Hk. }
  cbn in Hc. rewrite M_bind_unfold, (makedirs_ok _ _ Hd), M_bind_unfold.
  destruct (open_w_fail blog_path (ensure_dir output_dir w)) as [k Hk].
  { by rewrite can_open_ensure_dir. }
  exists k, blog_path, (ensure_dir output_dir w). rewrite Hk.
  split; [done|apply ensure_dir_files].
Qed.

Lemma crew_document_merged cc result :
  exists doc, crew_document str_list (AcpCrew.merge_context cc) result = Some doc.
Proof.
  unfold crew_document. change (AcpCrew.merge_context cc) with (Chain.merge_context cc).
  destruct (merge_context_has cc "company_type") as [ct ->]; [cbn; tauto|].
  destruct (merge_context_has cc "industry") as [ind ->]; [cbn; tauto|].
  cbn. eauto.
Qed.

(** X7: format_input_for_acp_orchestrator fails with KeyError naming the
    first absent field among company_type, industry, target_audience,
    value_proposition and key_benefits, in the order its template reads
    them. *)
Theorem format_input_names_missing_field ctx req k :
  first_missing planner_fields ctx = Some k ->
  ctx !! k = None /\ format_input ctx req = Raise (KeyError k).
Proof.
  intros Hk. pose proof (format_input_reads ctx req) as H. rewrite Hk in H.
  split; [|done]. by apply first_missing_absent in Hk as [_ ?].
Qed.

(** X8: a discovery-mode run that gets its agents and the calling agent's
    final text, on a file system where the directory can be made and
    blog_post.md opened, writes blog_post.md as the company and industry
    header followed by that text, with no title line; it leaves every
    other file, marketing_plan.md included, as the calling agent left it,
    and sends no request of its own. *)
Theorem discovery_run_writes_blog_only cc req w agents w1 q result w2 :
  from_acp "http://localhost:8000" "http://localhost:8001" w = (Ok agents, w1) ->
  format_input (AcpCrew.merge_context cc) req = Ok q ->
  acpagent_run (acp_agents_of agents) q w1 = (Ok result, w2) ->
  can_makedirs output_dir w2 = true ->
  can_open blog_path w2 = true ->
  exists w',
    crew_run cc req w = (Ok None, w')
    /\ fs_files w' !! blog_path
       = crew_document str_list (AcpCrew.merge_context cc) result
    /\ (forall p, p <> blog_path -> fs_files w' !! p = fs_files w2 !! p)
    /\ calls w' = calls w2.
Proof.
  intros Hd Hq Ha Hmk Hop. rewrite crew_run_unfold, Hd, Hq, Ha.
  destruct (crew_document_merged cc result) as [doc Hdoc].
  rewrite (crew_persist_ok _ _ _ doc); [|done..].
  eexists. split; [reflexivity|]. rewrite Hdoc.
  cbn [fs_files calls with_file]. rewrite ensure_dir_files.
  split; [apply lookup_insert_eq|].
  split; [by intros p Hp; rewrite lookup_insert_ne|].
  unfold ensure_dir. by case_bool_decide.
Qed.

(** X9: when discovery raises, the discovery-mode run raises that error
    without running the calling agent; when the calling agent raises, the
    run raises that error.  In both cases the run itself writes nothing:
    the world is the one the failing step left. *)
Theorem discovery_failure_propagates cc req w e :
  (forall w1,
     from_acp "http://localhost:8000" "http://localhost:8001" w = (Raise e, w1) ->
     crew_run cc req w = (Raise e, w1))
  /\ (forall agents w1 q w2,
        from_acp "http://localhost:8000" "http://localhost:8001" w = (Ok agents, w1) ->
        format_input (AcpCrew.merge_context cc) req = Ok q ->
        acpagent_run (acp_agents_of agents) q w1 = (Raise e, w2) ->
        crew_run cc req w = (Raise e, w2)).
Proof.
  split.
  - intros w1 Hd. by rewrite crew_run_unfold, Hd.
  - intros agents w1 q w2 Hd Hq Ha. by rewrite crew_run_unfold, Hd, Hq, Ha.
Qed.

(** X10: in discovery mode a persistence failure loses the text.  When
    the calling agent has answered but the directory cannot be made or
    blog_post.md cannot be opened, the run raises the OS error: the final
    text is neither returned nor written to any file. *)
Theorem discovery_persistence_failure_loses_text cc req w agents w1 q result w2 :
  from_acp "http://localhost:8000" "http://localhost:8001" w = (Ok agents, w1) ->
  format_input (AcpCrew.merge_context cc) req = Ok q ->
  acpagent_run (acp_agents_of agents) q w1 = (Ok result, w2) ->
  can_makedirs output_dir w2 && can_open blog_path w2 = false ->
  exists k p w',
    crew_run cc req w = (Raise (OSError k p), w')
    /\ fs_files w' = fs_files w2.
Proof.
  intros Hd Hq Ha Hc. rewrite crew_run_unfold, Hd, Hq, Ha.
  by apply crew_persist_fail.
Qed.

(** X11: the tools handed to the calling agent.  The run passes the
    calling agent one handle per agent name: the client of the last
    discovered agent of that name, so that agents of equal name on
    different endpoints shadow one another. *)
Theorem discovery_tools_last_wins cc req w agents w1 q :
  from_acp "http://localhost:8000" "http://localhost:8001" w = (Ok agents, w1) ->
  format_input (AcpCrew.merge_context cc) req = Ok q ->
  exists tools,
    (forall n, tools !! n = last_client n agents)
    /\ crew_run cc req w
       = (acpagent_run tools q
            ≫= crew_persist str_list (AcpCrew.merge_context cc)) w1.
Proof.
  intros Hd Hq. exists (acp_agents_of agents).
  split; [intros n; apply acp_agents_of_lookup|].
  rewrite crew_run_unfold, Hd, Hq, M_bind_unfold.
  by destruct (acpagent_run _ q w1) as [[result|e] w2].
Qed.

End DiscoveryFurther.


(** ** Properties of the server agents *)

Lemma SM_bind_unfold {LLM A B} (m : Crewai.SM LLM A) (f : A -> Crewai.SM LLM B) started :
  (m ≫= f) started =
  match m started with
  | (Crewai.Done a, started') => f a started'
  | (Crewai.Failed e, started') => (Crewai.Failed e, started')
  end.
Proof. reflexivity. Qed.

Lemma SM_lift_bind {LLM A B} (r : Crewai.outcome A) (f : A -> Crewai.SM LLM B) started :
  (Crewai.lift r ≫= f) started =
  match r with
  | Crewai.Done a => f a started
  | Crewai.Failed e => (Crewai.Failed e, started)
  end.
Proof. rewrite SM_bind_unfold. unfold Crewai.lift. by destruct r. Qed.

Lemma SM_kickoff_bind {LLM B} (kickoff : Crewai.Crew LLM -> Crewai.outcome string)
    (crew : Crewai.Crew LLM) (f : string -> Crewai.SM LLM B) started :
  (Crewai.kickoff_async kickoff crew ≫= f) started =
  match kickoff crew with
  | Crewai.Done a => f a (started ++ [crew])%list
  | Crewai.Failed e => (Crewai.Failed e, (started ++ [crew])%list)
  end.
Proof.
  rewrite SM_bind_unfold. unfold Crewai.kickoff_async. by destruct (kickoff crew).
Qed.


Section ServerAgents.
Context {LLM : Type} (llm : LLM).
Context (new_agent : Crewai.Agent LLM -> Crewai.outcome (Crewai.Agent LLM)).
Context (kickoff : Crewai.Crew LLM -> Crewai.outcome string).
Local Abbreviation marketing_planner :=
  (PlannerServer.marketing_planner llm new_agent kickoff).
Local Abbreviation blog_writer := (WriterServer.blog_writer llm new_agent kickoff).
Local Abbreviation supervisor_agent :=
  (WriterServer.supervisor_agent llm new_agent kickoff).

(** Past the agent constructors: a constructor that raises ends the call. *)
Ltac past_constructors :=
  repeat (rewrite SM_lift_bind;
          lazymatch goal with
          | |- context [match new_agent ?a with _ => _ end] =>
              destruct (new_agent a) as [?|?]; [|done]
          end).

Ltac agent_answers :=
  intros input started yielded started'; cbv zeta;
  past_constructors;
  rewrite SM_lift_bind;
  destruct (Crewai.first_part_content input) as [c|e]; [|done];
  rewrite SM_kickoff_bind;
  match goal with |- context [kickoff ?crew] =>
    destruct (kickoff crew) as [text|e] eqn:Hk; [|done];
    intros [= <- <-]; by exists crew, text
  end.

(** X12: whenever a server agent answers, it has started exactly one
    crew and yields exactly one message with exactly one part, holding
    the text of that crew; the emptiness check of chain.py accepts such a
    response and extracts that text. *)
Theorem server_agents_answer_one_part :
  answers_with_crew_text kickoff marketing_planner
  /\ answers_with_crew_text kickoff blog_writer
  /\ answers_with_crew_text kickoff supervisor_agent.
Proof.
  repeat split.
  - unfold PlannerServer.marketing_planner. agent_answers.
  - unfold WriterServer.blog_writer. agent_answers.
  - unfold WriterServer.supervisor_agent. agent_answers.
Qed.




(** X14: a server agent reads the first part of the first message only:
    further parts and further messages of the input change nothing. *)
Theorem server_agents_read_first_part_only p ps ms started :
  let input := {| parts := p :: ps |} :: ms in
  let first_only := [ {| parts := [ p ] |} ] in
  marketing_planner input started = marketing_planner first_only started
  /\ blog_writer input started = blog_writer first_only started
  /\ supervisor_agent input started = supervisor_agent first_only started.
Proof. repeat split. Qed.

End ServerAgents.


(** ** The prompts embed their variable text verbatim *)

Lemma append_nil_r (a : string) : a +:+ "" = a.
Proof.
  induction a as [|x a IH]; [done|].
  change (String x (a +:+ "") = String x a). by rewrite IH.
Qed.

Lemma append_length (a b : string) :
  String.length (a +:+ b) = String.length a + String.length b.
Proof.
  induction a as [|x a IH]; [done|].
  change (S (String.length (a +:+ b)) = S (String.length a + String.length b)).
  by rewrite IH.
Qed.

Lemma append_cancel_r (a b t : string) : a +:+ t = b +:+ t -> a = b.
Proof.
  revert b. induction a as [|x a IH]; intros [|y b] H.
  - done.
  - apply (f_equal String.length) in H.
    change ("" +:+ t) with t in H. rewrite append_length in H. cbn in H. lia.
  - apply (f_equal String.length) in H.
    change ("" +:+ t) with t in H. rewrite append_length in H. cbn in H. lia.
  - change (String x (a +:+ t) = String y (b +:+ t)) in H.
    injection H as -> H. f_equal. by apply IH.
Qed.

Lemma append_cancel_l (a s t : string) : a +:+ s = a +:+ t -> s = t.
Proof. apply (inj (String.app a)). Qed.

Lemma rstrip_app_ne (a b : string) : rstrip b <> "" -> rstrip (a +:+ b) <> "".
Proof.
  intros Hb. induction a as [|x a IH]; [done|].
  change (rstrip (String x (a +:+ b)) <> "").
  cbn [rstrip]. by destruct (rstrip (a +:+ b)).
Qed.

Lemma rstrip_app (a b : string) : rstrip b <> "" -> rstrip (a +:+ b) = a +:+ rstrip b.
Proof.
  intros Hb. induction a as [|x a IH]; [done|].
  change (rstrip (String x (a +:+ b)) = String x (a +:+ rstrip b)).
  cbn [rstrip]. rewrite IH.
  pose proof (rstrip_app_ne a b Hb) as Hne. rewrite IH in Hne.
  by destruct (a +:+ rstrip b).
Qed.

Lemma rstrip_app_blank (a b : string) : rstrip b = "" -> rstrip (a +:+ b) = rstrip a.
Proof.
  intros Hb. induction a as [|x a IH]; [done|].
  change (rstrip (String x (a +:+ b)) = rstrip (String x a)).
  cbn [rstrip]. by rewrite IH.
Qed.

Lemma lstrip_app (a b : string) :
  starts_nonspace a = true -> lstrip (a +:+ b) = a +:+ b.
Proof.
  destruct a as [|c a]; [done|]. cbn [starts_nonspace]. intros Hc.
  change (lstrip (String c (a +:+ b)) = String c (a +:+ b)).
  cbn [lstrip]. by destruct (isspace c).
Qed.

Lemma text_cons x l : text (x :: l) = x +:+ lines_after l.
Proof.
  revert x. induction l as [|y l IH]; intros x.
  - cbn. by rewrite append_nil_r.
  - change (x +:+ nl +:+ text (y :: l) = x +:+ nl +:+ y +:+ lines_after l).
    by rewrite IH.
Qed.

Lemma text_split n l x :
  List.nth_error l n = Some x ->
  text l = lines_before (List.firstn n l) +:+ x +:+ lines_after (List.skipn (S n) l).
Proof.
  revert l. induction n as [|n IH]; intros [|y l] H; try done.
  - injection H as ->. apply text_cons.
  - cbn [List.nth_error] in H. cbn [List.firstn List.skipn lines_before].
    destruct l as [|z l]; [by destruct n|].
    change (text (y :: z :: l)) with (y +:+ nl +:+ text (z :: l)).
    rewrite (IH _ H), !append_assoc. reflexivity.
Qed.

Lemma text_last l :
  l <> [] -> text l = lines_before (List.removelast l) +:+ List.last l "".
Proof.
  induction l as [|x l IH]; [done|]. intros _.
  destruct l as [|y l]; [done|].
  change (text (x :: y :: l)) with (x +:+ nl +:+ text (y :: l)).
  rewrite IH by done.
  change (List.removelast (x :: y :: l)) with (x :: List.removelast (y :: l)).
  change (List.last (x :: y :: l) "") with (List.last (y :: l) "").
  cbn [lines_before]. by rewrite !append_assoc.
Qed.

Lemma rstrip_text l :
  l <> [] -> rstrip (List.last l "") = List.last l "" -> List.last l "" <> "" ->
  rstrip (text l) = text l.
Proof.
  intros Hl Hr Hne. rewrite text_last by done.
  rewrite rstrip_app by (by rewrite Hr). by rewrite Hr.
Qed.

Lemma lines_after_app l m : lines_after (l ++ m) = lines_after l +:+ lines_after m.
Proof.
  induction l as [|x l IH]; [done|].
  cbn [app lines_after]. by rewrite IH, !append_assoc.
Qed.

Lemma lines_before_cons_app a x l :
  lines_before ((a +:+ x) :: l) = a +:+ x +:+ nl +:+ lines_before l.
Proof. cbn [lines_before]. by rewrite append_assoc. Qed.

Lemma lines_before_last l :
  l <> [] ->
  lines_before l = lines_before (List.removelast l) +:+ List.last l "" +:+ nl.
Proof.
  induction l as [|x l IH]; [done|]. intros _.
  destruct l as [|y l]; [done|].
  change (List.removelast (x :: y :: l)) with (x :: List.removelast (y :: l)).
  change (List.last (x :: y :: l) "") with (List.last (y :: l) "").
  cbn [lines_before] in *. by rewrite IH, !append_assoc.
Qed.

Lemma lines_after_cons x l : lines_after (x :: l) = nl +:+ x +:+ lines_after l.
Proof. reflexivity. Qed.

Lemma text_last_after l :
  l <> [] ->
  lines_after l = nl +:+ lines_before (List.removelast l) +:+ List.last l "".
Proof.
  destruct l as [|x l]; [done|]. intros _.
  change (lines_after (x :: l)) with (nl +:+ x +:+ lines_after l).
  by rewrite <- text_cons, text_last.
Qed.

(** [strip] on a template that opens and closes with an empty line. *)
Lemma strip_template (L : list string) :
  List.hd "x" L = "" ->
  List.last L "x" = "" ->
  let l := List.removelast (List.tl L) in
  l <> [] ->
  starts_nonspace (text l) = true ->
  rstrip (List.last l "") = List.last l "" ->
  List.last l "" <> "" ->
  strip (text L) = text l.
Proof.
  intros Hhd Hlast l Hl Hstart Hr Hne.
  destruct L as [|h t]; [done|]. cbn in Hhd. subst h.
  assert (t <> []) as Ht by (intros ->; by apply Hl).
  assert (t = l ++ [""])%list as Htl.
  { rewrite (List.app_removelast_last "x" Ht) at 1. unfold l. cbn [List.tl].
    do 2 f_equal. destruct t as [|y t']; [done|]. exact Hlast. }
  rewrite Htl. unfold strip.
  rewrite text_cons.
  change (lstrip ("" +:+ lines_after (l ++ [""])))
    with (lstrip (lines_after (l ++ [""]))).
  destruct l as [|x l']; [done|].
  change (lines_after ((x :: l') ++ [""]))
    with (nl +:+ x +:+ lines_after (l' ++ [""])).
  rewrite <- text_cons.
  change (lstrip (nl +:+ text (x :: l' ++ [""]))) with (lstrip (text (x :: l' ++ [""]))).
  assert (text (x :: l' ++ [""]) = text (x :: l') +:+ nl +:+ "") as ->.
  { rewrite !text_cons, lines_after_app, append_assoc. reflexivity. }
  rewrite lstrip_app by done.
  rewrite rstrip_app_blank by done.
  by apply rstrip_text.
Qed.

Section PromptsFurther.
Variable str_list : list string -> string.

Lemma planner_prompt_form ctx :
  first_missing planner_fields ctx = None ->
  exists before after, forall req,
    Chain.create_planner_input str_list ctx req
    = Ok ("Create a comprehensive marketing strategy for " +:+ before +:+
          "SPECIFIC REQUEST: " +:+ or_default req chain_default_request +:+ nl +:+
          after +:+ "- Risk Assessment").
Proof.
  unfold first_missing, planner_fields, has_key, Chain.create_planner_input, getitem.
  cbn [List.find].
  destruct (ctx !! "company_type") as [ct|]; cbn [negb]; [|done].
  destruct (ctx !! "industry") as [ind|]; cbn [negb]; [|done].
  destruct (ctx !! "target_audience") as [ta|]; cbn [negb]; [|done].
  destruct (ctx !! "value_proposition") as [vp|]; cbn [negb]; [|done].
  destruct (ctx !! "key_benefits") as [kb|]; cbn [negb]; [|done].
  intros _. eexists _, _. intros req.
  rewrite !result_bind_Ok. cbv zeta. unfold mret, result_ret. f_equal.
  fold chain_default_request.
  etransitivity.
  { rewrite strip_template; [|reflexivity|reflexivity|done|reflexivity|reflexivity|done].
    cbn [List.tl List.removelast].
    erewrite (text_split 9) by reflexivity.
    cbn [List.firstn List.skipn].
    rewrite lines_before_cons_app, text_last_after by done.
    cbn [List.removelast List.last].
    rewrite (append_assoc "Create a comprehensive marketing strategy for ").
    rewrite (append_assoc "SPECIFIC REQUEST: ").
    reflexivity. }
  reflexivity.
Qed.


Lemma writer_prompt_form ctx :
  first_missing writer_fields ctx = None ->
  exists before after, forall plan,
    Chain.create_writer_input str_list plan ctx
    = Ok (before +:+ "MARKETING STRATEGY:" +:+ nl +:+ plan +:+ nl +:+ after).
Proof.
  unfold first_missing, writer_fields, has_key, Chain.create_writer_input, getitem.
  cbn [List.find].
  destruct (ctx !! "company_type") as [ct|]; cbn [negb]; [|done].
  destruct (ctx !! "industry") as [ind|]; cbn [negb]; [|done].
  destruct (ctx !! "target_audience") as [ta|]; cbn [negb]; [|done].
  intros _. eexists _, _. intros plan.
  rewrite !result_bind_Ok. unfold mret, result_ret. f_equal.
  etransitivity.
  { erewrite (text_split 4) by reflexivity.
    cbn [List.firstn List.skipn].
    rewrite lines_before_last, lines_after_cons by done.
    cbn [List.removelast List.last].
    rewrite append_assoc, (append_assoc "MARKETING STRATEGY:").
    reflexivity. }
  reflexivity.
Qed.

(** X16: the writer prompt embeds the plan verbatim.  For a context with
    company_type, industry and target_audience, the prompt is a text that
    depends on the context only, with the plan on the line after the
    words MARKETING STRATEGY; plans that differ give prompts that
    differ. *)
Theorem writer_prompt_embeds_plan ctx :
  first_missing writer_fields ctx = None ->
  (exists before after, forall plan,
     Chain.create_writer_input str_list plan ctx
     = Ok (before +:+ "MARKETING STRATEGY:" +:+ nl +:+ plan +:+ nl +:+ after))
  /\ (forall p1 p2,
        Chain.create_writer_input str_list p1 ctx
        = Chain.create_writer_input str_list p2 ctx ->
        p1 = p2).
Proof.
  intros Hctx. destruct (writer_prompt_form ctx Hctx) as (before & after & Hform).
  split; [by exists before, after|].
  intros p1 p2. rewrite !Hform. intros [= H].
  do 3 apply append_cancel_l in H. by apply append_cancel_r in H.
Qed.

Lemma orchestrator_prompt_form ctx :
  first_missing planner_fields ctx = None ->
  exists before after, forall req,
    AcpCrew.format_input_for_acp_orchestrator str_list ctx req
    = Ok ("Create a marketing blog post for " +:+ before +:+
          "SPECIFIC REQUEST: " +:+ or_default req crew_default_request +:+ nl +:+
          after +:+ "- Risk Assessment").
Proof.
  unfold first_missing, planner_fields, has_key,
    AcpCrew.format_input_for_acp_orchestrator, getitem.
  cbn [List.find].
  destruct (ctx !! "company_type") as [ct|]; cbn [negb]; [|done].
  destruct (ctx !! "industry") as [ind|]; cbn [negb]; [|done].
  destruct (ctx !! "target_audience") as [ta|]; cbn [negb]; [|done].
  destruct (ctx !! "value_proposition") as [vp|]; cbn [negb]; [|done].
  destruct (ctx !! "key_benefits") as [kb|]; cbn [negb]; [|done].
  intros _. eexists _, _. intros req.
  rewrite !result_bind_Ok. cbv zeta. unfold mret, result_ret. f_equal.
  fold crew_default_request.
  etransitivity.
  { rewrite strip_template; [|reflexivity|reflexivity|done|reflexivity|reflexivity|done].
    cbn [List.tl List.removelast].
    erewrite (text_split 9) by reflexivity.
    cbn [List.firstn List.skipn].
    rewrite lines_before_cons_app, text_last_after by done.
    cbn [List.removelast List.last].
    rewrite (append_assoc "Create a marketing blog post for ").
    rewrite (append_assoc "SPECIFIC REQUEST: ").
    reflexivity. }
  reflexivity.
Qed.


(** C10, as the code has it: an empty specific_request is treated as an
    omitted one, in the prompts and in the runs of both entry points.
    Each prompt builder puts its own fixed default sentence after the
    words SPECIFIC REQUEST in both cases, and a non-empty request as
    given: create_planner_input the sentence without a final full stop,
    format_input_for_acp_orchestrator the sentence with one. *)
Theorem default_request_per_builder ctx :
  (Chain.create_planner_input str_list ctx (Some "")
     = Chain.create_planner_input str_list ctx None
   /\ AcpCrew.format_input_for_acp_orchestrator str_list ctx (Some "")
      = AcpCrew.format_input_for_acp_orchestrator str_list ctx None
   /\ (forall net cc w,
         Chain.run_marketing_workflow str_list net cc (Some "") w
         = Chain.run_marketing_workflow str_list net cc None w)
   /\ (forall from_acp acpagent_run cc w,
         AcpCrew.run_marketing_workflow str_list from_acp acpagent_run cc (Some "") w
         = AcpCrew.run_marketing_workflow str_list from_acp acpagent_run cc None w))
  /\ (first_missing planner_fields ctx = None ->
      exists planner_before planner_after crew_before crew_after,
        (forall req,
           Chain.create_planner_input str_list ctx req
           = Ok ("Create a comprehensive marketing strategy for " +:+ planner_before +:+
                 "SPECIFIC REQUEST: " +:+
                 match req with
                 | None | Some "" => "Create a comprehensive marketing strategy to increase brand awareness and drive customer acquisition"
                 | Some s => s
                 end +:+ nl +:+
                 planner_after +:+ "- Risk Assessment"))
        /\ (forall req,
              AcpCrew.format_input_for_acp_orchestrator str_list ctx req
              = Ok ("Create a marketing blog post for " +:+ crew_before +:+
                    "SPECIFIC REQUEST: " +:+
                    match req with
                    | None | Some "" => "Create a comprehensive marketing strategy to increase brand awareness and drive customer acquisition."
                    | Some s => s
                    end +:+ nl +:+
                    crew_after +:+ "- Risk Assessment"))).
Proof.
  split; [repeat split|].
  intros Hctx.
  destruct (planner_prompt_form ctx Hctx) as (pb & pa & Hp).
  destruct (orchestrator_prompt_form ctx Hctx) as (cb & ca & Hc).
  exists pb, pa, cb, ca. split; intros req; [by rewrite Hp | by rewrite Hc].
Qed.

End PromptsFurther.


(** ** The further properties at concrete inputs *)

Lemma run_touches_outputs_only_witness :
  exists r w',
    Chain.run_marketing_workflow sample_str_list sample_net None None blog_denied_world
      = (r, w')
    /\ fs_files w' !! "notes.txt" = fs_files blog_denied_world !! "notes.txt"
    /\ fs_denied w' = fs_denied blog_denied_world.
Proof.
  destruct (Chain.run_marketing_workflow sample_str_list sample_net None None
              blog_denied_world) as [r w'] eqn:Hrun.
  exists r, w'. split; [reflexivity|].
  destruct (run_touches_outputs_only sample_str_list sample_net None None
              blog_denied_world r w' Hrun) as (Hf & Hd & _).
  split; [apply Hf; discriminate | exact Hd].
Defined.

Lemma run_raises_no_key_error_witness :
  exists w',
    Chain.run_marketing_workflow sample_str_list (failing_net (KeyError "agent"))
      None None fresh_world = (Raise (KeyError "agent"), w')
    /\ ((exists pin, failing_net (KeyError "agent")
                       "http://localhost:8000" "marketing_planner" pin
                     = Raise (KeyError "agent"))
        \/ (exists win, failing_net (KeyError "agent")
                          "http://localhost:8001" "supervisor_agent" win
                        = Raise (KeyError "agent"))).
Proof.
  destruct (Chain.run_marketing_workflow sample_str_list (failing_net (KeyError "agent"))
              None None fresh_world) as [r w'] eqn:Hrun.
  assert (r = Raise (KeyError "agent")) as ->.
  { apply (f_equal fst) in Hrun. vm_compute in Hrun. congruence. }
  exists w'. split; [reflexivity|].
  exact (run_raises_no_key_error sample_str_list (failing_net (KeyError "agent"))
           None None fresh_world "agent" w' Hrun).
Defined.

Lemma run_request_discipline_witness :
  exists pin r w',
    Chain.create_planner_input sample_str_list (Chain.merge_context None) None = Ok pin
    /\ Chain.run_marketing_workflow sample_str_list sample_net None None fresh_world
       = (r, w')
    /\ calls_to "marketing_planner" w' = 1
    /\ calls_to "blog_writer" w' = 0.
Proof.
  destruct (Chain.create_planner_input sample_str_list (Chain.merge_context None) None)
    as [pin|e] eqn:Hpin; [|by vm_compute in Hpin].
  destruct (Chain.run_marketing_workflow sample_str_list sample_net None None
              fresh_world) as [r w'] eqn:Hrun.
  exists pin, r, w'. split; [reflexivity|]. split; [reflexivity|].
  destruct (run_request_discipline sample_str_list sample_net None None fresh_world
              pin r w' Hpin Hrun) as (_ & H1 & H2).
  split; [exact H1 | exact H2].
Defined.

Lemma blog_failure_keeps_plan_file_witness :
  planner_stage sample_str_list sample_net None None = Ok "PLAN_X"
  /\ writer_stage sample_str_list sample_net None "PLAN_X" = Ok "BLOG_Y"
  /\ can_makedirs output_dir blog_denied_world = true
  /\ can_open plan_path blog_denied_world = true
  /\ can_open blog_path blog_denied_world = false
  /\ exists k w',
       Chain.run_marketing_workflow sample_str_list sample_net None None
         blog_denied_world = (Raise (OSError k blog_path), w')
       /\ fs_files w' !! plan_path
          = plan_document sample_str_list (Chain.merge_context None) "PLAN_X"
       /\ fs_files w' !! blog_path = fs_files blog_denied_world !! blog_path
       /\ output_dir ∈ fs_dirs w'.
Proof.
  assert (planner_stage sample_str_list sample_net None None = Ok "PLAN_X") as Hp
    by (vm_compute; reflexivity).
  assert (writer_stage sample_str_list sample_net None "PLAN_X" = Ok "BLOG_Y") as Hw
    by (vm_compute; reflexivity).
  assert (can_makedirs output_dir blog_denied_world = true) as H1
    by (vm_compute; reflexivity).
  assert (can_open plan_path blog_denied_world = true) as H2
    by (vm_compute; reflexivity).
  assert (can_open blog_path blog_denied_world = false) as H3
    by (vm_compute; reflexivity).
  repeat (split; [assumption|]).
  exact (blog_failure_keeps_plan_file sample_str_list sample_net None None
           blog_denied_world "PLAN_X" "BLOG_Y" Hp Hw H1 H2 H3).
Defined.

Lemma directory_failure_writes_nothing_witness :
  planner_stage sample_str_list sample_net None None = Ok "PLAN_X"
  /\ writer_stage sample_str_list sample_net None "PLAN_X" = Ok "BLOG_Y"
  /\ can_makedirs output_dir occupied_world = false
  /\ exists k w',
       Chain.run_marketing_workflow sample_str_list sample_net None None occupied_world
         = (Raise (OSError k output_dir), w')
       /\ fs_files w' = fs_files occupied_world
       /\ fs_dirs w' = fs_dirs occupied_world.
Proof.
  assert (planner_stage sample_str_list sample_net None None = Ok "PLAN_X") as Hp
    by (vm_compute; reflexivity).
  assert (writer_stage sample_str_list sample_net None "PLAN_X" = Ok "BLOG_Y") as Hw
    by (vm_compute; reflexivity).
  assert (can_makedirs output_dir occupied_world = false) as Hd
    by (vm_compute; reflexivity).
  repeat (split; [assumption|]).
  exact (directory_failure_writes_nothing sample_str_list sample_net None None
           occupied_world "PLAN_X" "BLOG_Y" Hp Hw Hd).
Defined.

Lemma remote_error_propagates_witness :
  exists pin win,
    Chain.create_planner_input sample_str_list (Chain.merge_context None) None = Ok pin
    /\ Chain.create_writer_input sample_str_list "PLAN_X" (Chain.merge_context None)
       = Ok win
    /\ Chain.run_marketing_workflow sample_str_list (failing_net (RemoteError "refused"))
         None None fresh_world
       = (Raise (RemoteError "refused"), log_call (planner_call pin) fresh_world)
    /\ Chain.run_marketing_workflow sample_str_list
         (writer_failing_net (RemoteError "refused")) None None fresh_world
       = (Raise (RemoteError "refused"),
          log_call (writer_call win) (log_call (planner_call pin) fresh_world)).
Proof.
  destruct (Chain.create_planner_input sample_str_list (Chain.merge_context None) None)
    as [pin|e] eqn:Hpin; [|by vm_compute in Hpin].
  destruct (Chain.create_writer_input sample_str_list "PLAN_X" (Chain.merge_context None))
    as [win|e] eqn:Hwin; [|by vm_compute in Hwin].
  exists pin, win. repeat (split; [reflexivity|]). split.
  - exact (proj1 (remote_error_propagates sample_str_list
                    (failing_net (RemoteError "refused")) None None fresh_world pin
                    (RemoteError "refused") Hpin) eq_refl).
  - exact (proj2 (remote_error_propagates sample_str_list
                    (writer_failing_net (RemoteError "refused")) None None fresh_world
                    pin (RemoteError "refused") Hpin)
             (reply "PLAN_X") "PLAN_X" win eq_refl eq_refl Hwin eq_refl).
Defined.

Lemma format_input_names_missing_field_witness :
  first_missing planner_fields context_without_value_proposition
    = Some "value_proposition"
  /\ context_without_value_proposition !! "value_proposition" = None
  /\ AcpCrew.format_input_for_acp_orchestrator sample_str_list
       context_without_value_proposition None
     = Raise (KeyError "value_proposition").
Proof.
  assert (first_missing planner_fields context_without_value_proposition
          = Some "value_proposition") as H by (vm_compute; reflexivity).
  split; [exact H|].
  exact (format_input_names_missing_field sample_str_list
           context_without_value_proposition None "value_proposition" H).
Defined.

Lemma discovery_run_writes_blog_only_witness :
  exists w',
    AcpCrew.run_marketing_workflow sample_str_list stub_from_acp (stub_acpagent "FINAL")
      None None fresh_world = (Ok None, w')
    /\ fs_files w' !! blog_path
       = crew_document sample_str_list (AcpCrew.merge_context None) "FINAL"
    /\ (forall p, p <> blog_path -> fs_files w' !! p = fs_files fresh_world !! p)
    /\ calls w' = calls fresh_world.
Proof.
  destruct (AcpCrew.format_input_for_acp_orchestrator sample_str_list
              (AcpCrew.merge_context None) None) as [q|e] eqn:Hq;
    [|by vm_compute in Hq].
  refine (discovery_run_writes_blog_only sample_str_list stub_from_acp
            (stub_acpagent "FINAL") None None fresh_world
            [ ("http://localhost:8000", "marketing_planner");
              ("http://localhost:8001", "supervisor_agent") ]
            fresh_world q "FINAL" fresh_world eq_refl Hq eq_refl _ _).
  - vm_compute. reflexivity.
  - vm_compute. reflexivity.
Defined.

Lemma discovery_failure_propagates_witness :
  AcpCrew.run_marketing_workflow sample_str_list
    (failing_from_acp (RemoteError "refused")) (stub_acpagent "FINAL")
    None None fresh_world
  = (Raise (RemoteError "refused"), fresh_world).
Proof.
  exact (proj1 (discovery_failure_propagates sample_str_list
                  (failing_from_acp (RemoteError "refused")) (stub_acpagent "FINAL")
                  None None fresh_world (RemoteError "refused"))
           fresh_world eq_refl).
Defined.

Lemma discovery_persistence_failure_loses_text_witness :
  can_makedirs output_dir blog_denied_world && can_open blog_path blog_denied_world = false
  /\ exists k p w',
       AcpCrew.run_marketing_workflow sample_str_list stub_from_acp
         (stub_acpagent "FINAL") None None blog_denied_world
       = (Raise (OSError k p), w')
       /\ fs_files w' = fs_files blog_denied_world.
Proof.
  assert (can_makedirs output_dir blog_denied_world
          && can_open blog_path blog_denied_world = false) as Hc
    by (vm_compute; reflexivity).
  split; [exact Hc|].
  destruct (AcpCrew.format_input_for_acp_orchestrator sample_str_list
              (AcpCrew.merge_context None) None) as [q|e] eqn:Hq;
    [|by vm_compute in Hq].
  exact (discovery_persistence_failure_loses_text sample_str_list stub_from_acp
           (stub_acpagent "FINAL") None None blog_denied_world
           [ ("http://localhost:8000", "marketing_planner");
             ("http://localhost:8001", "supervisor_agent") ]
           blog_denied_world q "FINAL" blog_denied_world eq_refl Hq eq_refl Hc).
Defined.

Lemma discovery_tools_last_wins_witness :
  exists tools,
    tools !! "helper" = Some "http://localhost:8001"
    /\ exists q,
         AcpCrew.run_marketing_workflow sample_str_list colliding_from_acp
           (stub_acpagent "FINAL") None None fresh_world
         = (stub_acpagent "FINAL" tools q
              ≫= crew_persist sample_str_list (AcpCrew.merge_context None)) fresh_world.
Proof.
  destruct (AcpCrew.format_input_for_acp_orchestrator sample_str_list
              (AcpCrew.merge_context None) None) as [q|e] eqn:Hq;
    [|by vm_compute in Hq].
  destruct (discovery_tools_last_wins sample_str_list colliding_from_acp
              (stub_acpagent "FINAL") None None fresh_world colliding_agents
              fresh_world q eq_refl Hq)
    as (tools & Htools & Hrun).
  exists tools. split; [exact (Htools "helper")|].
  exists q. exact Hrun.
Defined.

Lemma server_agents_answer_one_part_witness :
  exists crew,
    PlannerServer.marketing_planner tt sample_new_agent sample_kickoff
      [ {| parts := [ {| content := "X" |} ] |} ] []
    = (Crewai.Done [ {| parts := [ {| content := "OUT" |} ] |} ], [crew])
    /\ first_content planner_msg
         (run_of [ {| parts := [ {| content := "OUT" |} ] |} ]) = Ok "OUT".
Proof.
  destruct (PlannerServer.marketing_planner tt sample_new_agent sample_kickoff
              [ {| parts := [ {| content := "X" |} ] |} ] []) as [r started] eqn:Hrun.
  assert (exists yielded, r = Crewai.Done yielded) as [yielded ->].
  { injection Hrun as <- _. by eexists. }
  destruct (proj1 (server_agents_answer_one_part tt sample_new_agent sample_kickoff)
              [ {| parts := [ {| content := "X" |} ] |} ] [] yielded started Hrun)
    as (crew & text & Hk & -> & -> & Hc).
  injection Hk as <-. exists crew. split; [reflexivity|]. apply Hc.
Defined.


Lemma server_agents_read_first_part_only_witness :
  WriterServer.supervisor_agent tt sample_new_agent sample_kickoff two_part_input []
  = WriterServer.supervisor_agent tt sample_new_agent sample_kickoff
      [ {| parts := [ {| content := "X" |} ] |} ] [].
Proof.
  exact (proj2 (proj2 (server_agents_read_first_part_only tt sample_new_agent
                         sample_kickoff
                         {| content := "X" |} [ {| content := "ignored" |} ]
                         [ {| parts := [ {| content := "also ignored" |} ] |} ] []))).
Defined.


Lemma writer_prompt_embeds_plan_witness :
  first_missing writer_fields context_without_value_proposition = None
  /\ (Chain.create_writer_input sample_str_list "PLAN_X" context_without_value_proposition
      = Chain.create_writer_input sample_str_list "PLAN_Y" context_without_value_proposition ->
      "PLAN_X" = "PLAN_Y").
Proof.
  assert (first_missing writer_fields context_without_value_proposition = None) as H
    by (vm_compute; reflexivity).
  split; [exact H|].
  exact (proj2 (writer_prompt_embeds_plan sample_str_list
                  context_without_value_proposition H) "PLAN_X" "PLAN_Y").
Defined.


Lemma default_request_per_builder_witness :
  first_missing planner_fields Chain.DEFAULT_CONTEXT = None
  /\ exists planner_before planner_after crew_before crew_after,
       Chain.create_planner_input sample_str_list Chain.DEFAULT_CONTEXT (Some "")
       = Ok ("Create a comprehensive marketing strategy for " +:+ planner_before +:+
             "SPECIFIC REQUEST: " +:+ "Create a comprehensive marketing strategy to increase brand awareness and drive customer acquisition" +:+ nl +:+
             planner_after +:+ "- Risk Assessment")
       /\ Chain.create_planner_input sample_str_list Chain.DEFAULT_CONTEXT None
          = Ok ("Create a comprehensive marketing strategy for " +:+ planner_before +:+
                "SPECIFIC REQUEST: " +:+ "Create a comprehensive marketing strategy to increase brand awareness and drive customer acquisition" +:+ nl +:+
                planner_after +:+ "- Risk Assessment")
       /\ AcpCrew.format_input_for_acp_orchestrator sample_str_list
            Chain.DEFAULT_CONTEXT (Some "")
          = Ok ("Create a marketing blog post for " +:+ crew_before +:+
                "SPECIFIC REQUEST: " +:+ "Create a comprehensive marketing strategy to increase brand awareness and drive customer acquisition." +:+ nl +:+
                crew_after +:+ "- Risk Assessment")
       /\ AcpCrew.format_input_for_acp_orchestrator sample_str_list
            Chain.DEFAULT_CONTEXT None
          = Ok ("Create a marketing blog post for " +:+ crew_before +:+
                "SPECIFIC REQUEST: " +:+ "Create a comprehensive marketing strategy to increase brand awareness and drive customer acquisition." +:+ nl +:+
                crew_after +:+ "- Risk Assessment").
Proof.
  assert (first_missing planner_fields Chain.DEFAULT_CONTEXT = None) as H
    by (vm_compute; reflexivity).
  split; [exact H|].
  destruct (proj2 (default_request_per_builder sample_str_list Chain.DEFAULT_CONTEXT) H)
    as (pb & pa & cb & ca & Hp & Hc).
  exists pb, pa, cb, ca.
  split; [exact (Hp (Some ""))|]. split; [exact (Hp None)|].
  split; [exact (Hc (Some "")) | exact (Hc None)].
Defined.

(** C10 fails on the code where it speaks of one sentence for both
    builders: on the default context an omitted request gives, in
    format_input_for_acp_orchestrator, the prompt of the sentence with
    the full stop and not the prompt of the sentence that
    create_planner_input puts. *)
Lemma default_sentences_differ :
  Chain.create_planner_input sample_str_list Chain.DEFAULT_CONTEXT None
  = Chain.create_planner_input sample_str_list Chain.DEFAULT_CONTEXT
      (Some "Create a comprehensive marketing strategy to increase brand awareness and drive customer acquisition")
  /\ AcpCrew.format_input_for_acp_orchestrator sample_str_list AcpCrew.DEFAULT_CONTEXT None
     = AcpCrew.format_input_for_acp_orchestrator sample_str_list AcpCrew.DEFAULT_CONTEXT
         (Some "Create a comprehensive marketing strategy to increase brand awareness and drive customer acquisition.")
  /\ AcpCrew.format_input_for_acp_orchestrator sample_str_list AcpCrew.DEFAULT_CONTEXT None
     <> AcpCrew.format_input_for_acp_orchestrator sample_str_list AcpCrew.DEFAULT_CONTEXT
          (Some "Create a comprehensive marketing strategy to increase brand awareness and drive customer acquisition").
Proof.
  split; [reflexivity|]. split; [reflexivity|].
  assert (first_missing planner_fields AcpCrew.DEFAULT_CONTEXT = None) as H
    by (vm_compute; reflexivity).
  destruct (orchestrator_prompt_form sample_str_list AcpCrew.DEFAULT_CONTEXT H)
    as (before & after & Hform).
  rewrite !Hform. intros [= Heq].
  do 3 apply append_cancel_l in Heq. apply append_cancel_r in Heq.
  discriminate Heq.
Qed.
